(** * XyliLoader: the file identity and storage-retrieval core of [main.go]

    A shallow embedding of [generateID], [getFileType], [formatSize] and of
    the four request handlers registered in [main] ([/], [/raw/], [/upload],
    [/delete/]), together with the GridFS bucket they talk to, and the
    properties of the specification stated over that embedding. *)

From Stdlib Require Import ZArith List Bool Lia.
From Stdlib Require Import Strings.String Strings.Ascii Strings.Byte.
From Stdlib Require Import DecimalString.
From Equations Require Import Equations.
Import ListNotations.

Local Open Scope string_scope.
Local Open Scope Z_scope.

(* ===================================================================== *)
(** * Machine integers and strings as Go has them *)
(* ===================================================================== *)

Module GoInt.

(** [int64] is a 64-bit two's complement integer. *)
Definition min_int64 : Z := - 2 ^ 63.
Definition max_int64 : Z := 2 ^ 63 - 1.

Definition in_int64 (x : Z) : Prop := min_int64 <= x <= max_int64.

Definition in_int64b (x : Z) : bool :=
  (min_int64 <=? x) && (x <=? max_int64).

(** Wrap-around of an [int64] result. *)
Definition wrap64 (x : Z) : Z :=
  (x + 2 ^ 63) mod 2 ^ 64 - 2 ^ 63.

(** [%d] of [fmt.Sprintf]. *)
Definition itoa (x : Z) : string :=
  NilZero.string_of_int (Z.to_int x).

End GoInt.

Module GoString.

(** [strings.HasPrefix(s, prefix)]. *)
Definition HasPrefix (s pre : string) : bool := String.prefix pre s.

(** [s[:n]]; Go panics when [n] exceeds [len(s)], which is [None] here. *)
Definition slice_to (n : nat) (s : string) : option string :=
  if (n <=? String.length s)%nat then Some (substring 0 n s) else None.

(** [s[n:]]; Go panics when [n] exceeds [len(s)]. *)
Definition slice_from (n : nat) (s : string) : option string :=
  if (n <=? String.length s)%nat
  then Some (substring n (String.length s - n) s) else None.

(** The one-character string holding a double quote. *)
Definition dquote : string := String (ascii_of_nat 34) EmptyString.

(** [s[i]] read as a character, [None] when the index is out of range. *)
Definition index (s : string) (i : nat) : option ascii := String.get i s.

Fixpoint all_chars (p : ascii -> bool) (s : string) : bool :=
  match s with
  | EmptyString => true
  | String c r => p c && all_chars p r
  end.

Fixpoint mem_char (c : ascii) (s : string) : bool :=
  match s with
  | EmptyString => false
  | String d r => Ascii.eqb c d || mem_char c r
  end.

End GoString.

(* ===================================================================== *)
(** * [encoding/base64]: [RawURLEncoding.EncodeToString] *)
(* ===================================================================== *)

Module Base64.

(** The URL-safe alphabet of RFC 4648, as [encodeURL] in the Go library. *)
Definition encodeURL : string :=
  "ABCDEFGHIJKLMNOPQRSTUVWXYZabcdefghijklmnopqrstuvwxyz0123456789-_".

Definition in_alphabet (c : ascii) : bool := GoString.mem_char c encodeURL.

Definition byte_val (b : byte) : Z := Z.of_N (Byte.to_N b).

(** [enc.encode[v & 0x3F]]: the sextet is masked before it indexes the
    64-character table. *)
Definition sextet (v : Z) (shift : Z) : ascii :=
  match String.get (Z.to_nat (Z.land (Z.shiftr v shift) 63)) encodeURL with
  | Some c => c
  | None => zero
  end.

(** Whole groups of three bytes give four characters; a remainder of one
    byte gives two and of two bytes gives three, and the raw encoding adds
    no padding. *)
Fixpoint EncodeToString (src : list byte) : string :=
  match src with
  | [] => EmptyString
  | [b0] =>
      let val := Z.shiftl (byte_val b0) 16 in
      String (sextet val 18) (String (sextet val 12) EmptyString)
  | [b0; b1] =>
      let val := Z.lor (Z.shiftl (byte_val b0) 16)
                       (Z.shiftl (byte_val b1) 8) in
      String (sextet val 18) (String (sextet val 12)
        (String (sextet val 6) EmptyString))
  | b0 :: b1 :: b2 :: rest =>
      let val := Z.lor (Z.lor (Z.shiftl (byte_val b0) 16)
                              (Z.shiftl (byte_val b1) 8))
                       (byte_val b2) in
      String (sextet val 18) (String (sextet val 12)
        (String (sextet val 6) (String (sextet val 0)
          (EncodeToString rest))))
  end.

End Base64.

(* ===================================================================== *)
(** * [crypto/rand]: the entropy source *)
(* ===================================================================== *)

Module CryptoRand.

(** [make([]byte, n)]: a zeroed buffer. *)
Definition make (n : nat) : list byte := repeat x00 n.

(** [rand.Read(b)] returns [(n, err)] and writes into [b].  The outcome of
    one call is described by the bytes the source was able to supply: the
    first [n] bytes of [b] are overwritten, the rest of [b] is left as it
    was, and [err] is set exactly when fewer than [len(b)] bytes came. *)
Definition Read (supplied b : list byte) : list byte * (nat * bool) :=
  let n := Nat.min (List.length supplied) (List.length b) in
  ((firstn n supplied ++ skipn n b)%list, (n, (n <? List.length b)%nat)).

(** The source fails on a call when it cannot fill the buffer. *)
Definition fails (supplied : list byte) (len : nat) : bool :=
  snd (snd (Read supplied (make len))).

End CryptoRand.

(* ===================================================================== *)
(** * [fmt]: the two float conversions [formatSize] relies on *)
(* ===================================================================== *)

Module Fmt.

(** [float64(x)] for a non-negative integer [x]: the nearest value with 53
    significant bits, ties to even.  The result is again an integer and is
    kept as one. *)
Definition float64_of_int (x : Z) : Z :=
  let k := Z.log2 x - 52 in
  if k <=? 0 then x
  else
    let q := Z.shiftr x k in
    let r := Z.land x (Z.ones k) in
    let half := Z.shiftl 1 (k - 1) in
    let q' := if (half <? r) || ((r =? half) && Z.odd q) then q + 1 else q in
    Z.shiftl q' k.

(** [fmt.Sprintf("%.1f", num / den)] for the float quotient of a
    non-negative [num] by a power of two [den] (such a division is exact in
    binary floating point): the exact value is rounded to one decimal,
    halfway cases to the even digit, as [strconv] does. *)
Definition Sprintf_1f (num den : Z) : string :=
  let q := (10 * num) / den in
  let r := (10 * num) mod den in
  let t := if (den <? 2 * r) || ((2 * r =? den) && Z.odd q)
           then q + 1 else q in
  GoInt.itoa (t / 10) ++ "." ++ GoInt.itoa (t mod 10).

End Fmt.

(* ===================================================================== *)
(** * The helpers of [main.go] *)
(* ===================================================================== *)

(** [generateID]: four bytes are requested from the entropy source, both
    results of [rand.Read] are dropped, the buffer is encoded and cut to five
    characters.  [None] stands for the slice's range panic. *)
Definition generateID (supplied : list byte) : option string :=
  let b := CryptoRand.make 4 in
  let b := fst (CryptoRand.Read supplied b) in
  GoString.slice_to 5 (Base64.EncodeToString b).

Definition getFileType (contentType : string) : string :=
  if GoString.HasPrefix contentType "image/" then "image"
  else if GoString.HasPrefix contentType "video/" then "video"
  else if GoString.HasPrefix contentType "audio/" then "audio"
  else "file".

(** [const unit = 1024] of [formatSize]. *)
Definition size_unit : Z := 1024.

(** The loop of [formatSize]:
    [for n := bytes / unit; n >= unit; n /= unit { div *= unit; exp++ }],
    started from [(n, div, exp)] and returning the final [(div, exp)]. *)
Equations? formatSize_loop (n div : Z) (exp : nat) : Z * nat
  by wf (Z.to_nat (Z.log2 n)) lt :=
  formatSize_loop n div exp with Z_le_gt_dec size_unit n := {
    | left _ => formatSize_loop (Z.quot n size_unit)
                  (GoInt.wrap64 (div * size_unit)) (S exp);
    | right _ => (div, exp) }.
Proof.
  unfold size_unit in *.
  rewrite Z.quot_div_nonneg by lia.
  change 1024 with (2 ^ 10). rewrite <- Z.shiftr_div_pow2 by lia.
  rewrite Z.log2_shiftr by lia.
  assert (10 <= Z.log2 n) by (apply Z.log2_le_pow2; lia).
  lia.
Qed.

(** [formatSize]; [None] stands for an index out of the range of
    ["KMGTPE"]. *)
Definition formatSize (bytes : Z) : option string :=
  if bytes <? size_unit then Some (GoInt.itoa bytes ++ " B")
  else
    let '(div, exp) := formatSize_loop (Z.quot bytes size_unit) size_unit 0 in
    match GoString.index "KMGTPE" exp with
    | Some c =>
        Some (Fmt.Sprintf_1f (Fmt.float64_of_int bytes)
                             (Fmt.float64_of_int div)
              ++ " " ++ String c "B")
    | None => None
    end.

(* ===================================================================== *)
(** * The GridFS bucket *)
(* ===================================================================== *)

Module GridFS.

(** [bson.M] with string values: the metadata document of a file. *)
Definition M : Type := list (string * string).

Fixpoint lookup (key : string) (m : M) : option string :=
  match m with
  | [] => None
  | (k, v) :: rest => if String.eqb k key then Some v else lookup key rest
  end.

(** A document of the [fs.files] collection together with its chunks. *)
Record FileDoc : Type := mkFileDoc {
  ID : nat;                 (* [_id], an ObjectID *)
  Filename : string;        (* [filename] *)
  Length : Z;               (* [length] *)
  Metadata : M;             (* [metadata] *)
  Chunks : list byte        (* the content, from [fs.chunks] *)
}.

(** The bucket: the file documents in the collection's natural order
    (oldest first) and the next ObjectID the driver will hand out; an
    ObjectID is modelled by the rank in which the driver generated it. *)
Record Bucket : Type := mkBucket {
  files : list FileDoc;
  next_oid : nat
}.

Definition empty : Bucket := mkBucket [] 0.

(** A filter [bson.M{"metadata.<field>": value}]: a document matches when
    its metadata has the field with exactly that value.  Only paths into
    [metadata] occur in the program. *)
Definition matches (path value : string) (d : FileDoc) : bool :=
  if GoString.HasPrefix path "metadata." then
    match lookup (substring 9 (String.length path - 9) path)
                 (Metadata d) with
    | Some v => String.eqb v value
    | None => false
    end
  else false.

(** [Bucket.Find(filter)]: the documents a cursor will yield, in order.
    The program passes no sort option, so the cursor follows the natural
    order of the collection; file documents are never updated, which makes
    that the order in which they were inserted. *)
Definition Find (field value : string) (b : Bucket) : list FileDoc :=
  filter (matches field value) (files b).

Definition has_id (id : nat) (d : FileDoc) : bool := Nat.eqb (ID d) id.

Definition find_id (id : nat) (b : Bucket) : option FileDoc :=
  find (has_id id) (files b).

(** [Bucket.Delete(id)]: [None] is [ErrFileNotFound]. *)
Definition Delete (id : nat) (b : Bucket) : option Bucket :=
  match find_id id b with
  | Some _ =>
      Some (mkBucket (filter (fun d => negb (has_id id d)) (files b))
                     (next_oid b))
  | None => None
  end.

(** An open upload stream: the ObjectID drawn when it was opened, the
    name and options it was opened with, and the bytes written so far. *)
Record UploadStream : Type := mkUploadStream {
  FileID : nat;
  us_filename : string;
  us_metadata : M;
  us_written : list byte
}.

Definition OpenUploadStream (filename : string) (meta : M) (b : Bucket)
  : UploadStream * Bucket :=
  (mkUploadStream (next_oid b) filename meta [],
   mkBucket (files b) (S (next_oid b))).

Definition WriteChunks (us : UploadStream) (data : list byte) : UploadStream :=
  mkUploadStream (FileID us) (us_filename us) (us_metadata us)
                 (us_written us ++ data)%list.

(** [UploadStream.Close]: the buffered chunks are flushed and the file
    document is created, with the length of what was written. *)
Definition Close (us : UploadStream) (b : Bucket) : Bucket :=
  mkBucket
    (files b ++
     [mkFileDoc (FileID us) (us_filename us)
                (Z.of_nat (List.length (us_written us)))
                (us_metadata us) (us_written us)])%list
    (next_oid b).

End GridFS.

(* ===================================================================== *)
(** * Requests, responses and the handler monad *)
(* ===================================================================== *)

Module HTTP.

Definition StatusOK : Z := 200.
Definition StatusMovedPermanently : Z := 301.
Definition StatusBadRequest : Z := 400.
Definition StatusNotFound : Z := 404.
Definition StatusMethodNotAllowed : Z := 405.
Definition StatusInternalServerError : Z := 500.

Definition MethodGet : string := "GET".
Definition MethodPost : string := "POST".

(** [multipart.FileHeader] and the opened file. *)
Record FormFile : Type := mkFormFile {
  fh_Filename : string;
  fh_ContentType : string;    (* [header.Header.Get("Content-Type")] *)
  fh_Size : Z;                (* [header.Size] *)
  fh_data : list byte
}.

Record Request : Type := mkRequest {
  Method : string;
  Path : string;              (* [r.URL.Path] *)
  multipart_ok : bool;        (* [ParseMultipartForm] returned no error *)
  form_file : option FormFile (* the part named "file", when present *)
}.

(** What a viewer template is executed with. *)
Record ViewerData : Type := mkViewerData {
  vd_FileID : string;
  vd_Filename : string;
  vd_FileSize : string
}.

Inductive Body : Type :=
| Text (msg : string)                      (* [http.Error], [http.NotFound] *)
| Json (obj : list (string * string))      (* an encoded [map[string]string] *)
| Bytes (data : list byte)                 (* [io.Copy] to the writer *)
| Page (template : string) (data : option ViewerData)
| Static (path : string)
| MovedTo (location : string).

Record Response : Type := mkResponse {
  Status : Z;
  Header : list (string * string);
  body : Body
}.

(** What [http.Error(w, msg, code)] writes. *)
Definition text_error (msg : string) (code : Z) : Response :=
  mkResponse code
    [("Content-Type", "text/plain; charset=utf-8");
     ("X-Content-Type-Options", "nosniff")]
    (Text msg).

(** What [jsonError(w, message, status)] writes. *)
Definition json_error (message : string) (status : Z) : Response :=
  mkResponse status [("Content-Type", "application/json")]
    (Json [("error", message)]).

(** A handler either answers or panics (the server then drops the
    connection). *)
Inductive Outcome : Type :=
| Responded (r : Response)
| Panicked.

Definition status_of (o : Outcome) : option Z :=
  match o with
  | Responded r => Some (Status r)
  | Panicked => None
  end.

Definition body_of (o : Outcome) : option Body :=
  match o with
  | Responded r => Some (body r)
  | Panicked => None
  end.

Definition header_of (key : string) (o : Outcome) : option string :=
  match o with
  | Responded r => GridFS.lookup key (Header r)
  | Panicked => None
  end.

End HTTP.

(** Calls made on the bucket, in the order a handler makes them. *)
Inductive StoreCall : Type :=
| CallFind (field value : string)
| CallOpenDownloadStream (id : nat)
| CallOpenUploadStream (filename : string)
| CallWrite (n : nat)
| CallClose
| CallDelete (id : nat).

(** How [io.Copy(uploadStream, file)] can fail: reading the uploaded part
    fails after [n] bytes were copied, or the stream cannot write to the
    store (and then cannot create the file document on [Close] either). *)
Inductive CopyFault : Type :=
| SourceFault (n : nat)
| StoreFault.

(** The faults of the backing store during one request: one flag for each
    error a call on the store can return, whether the handler tests it or,
    as for [Close], drops it. *)
Record Faults : Type := mkFaults {
  find_err : bool;
  decode_err : bool;
  open_download_err : bool;
  open_upload_err : bool;
  copy_err : option CopyFault;
  close_err : bool;
  delete_err : bool
}.

Definition no_faults : Faults :=
  mkFaults false false false false None false false.

(** The environment of one request: the store's faults and, for each call
    of [rand.Read] the handler makes, the bytes the source supplies. *)
Record Env : Type := mkEnv {
  faults : Faults;
  entropy : nat -> list byte
}.

(** The [upload] section of [config.json]. *)
Record Config : Type := mkConfig {
  MaxSize : Z;
  BaseURL : string
}.

(** The state a handler runs in: the bucket and the log of calls on it. *)
Record World : Type := mkWorld {
  bucket : GridFS.Bucket;
  calls : list StoreCall
}.

Module Handler.
Import HTTP.

(** A handler step yields a value or has already returned an outcome. *)
Definition t (A : Type) : Type := World -> (A + Outcome) * World.

Definition ret {A} (a : A) : t A := fun w => (inl a, w).

Definition bind {A B} (m : t A) (k : A -> t B) : t B :=
  fun w =>
    match m w with
    | (inl a, w') => k a w'
    | (inr o, w') => (inr o, w')
    end.

(** [return] after the response was written. *)
Definition reply {A} (r : Response) : t A := fun w => (inr (Responded r), w).

Definition panic {A} : t A := fun w => (inr Panicked, w).

(** A value that Go computes with a possible run-time panic. *)
Definition checked {A} (x : option A) : t A :=
  match x with
  | Some a => ret a
  | None => panic
  end.

Definition log (c : StoreCall) : t unit :=
  fun w => (inl tt, mkWorld (bucket w) (calls w ++ [c])%list).

Definition get_bucket : t GridFS.Bucket := fun w => (inl (bucket w), w).

Definition put_bucket (b : GridFS.Bucket) : t unit :=
  fun w => (inl tt, mkWorld b (calls w)).

Definition run (h : t Empty_set) (b : GridFS.Bucket)
  : Outcome * GridFS.Bucket * list StoreCall :=
  match h (mkWorld b []) with
  | (inl e, _) => match e with end
  | (inr o, w) => (o, bucket w, calls w)
  end.

End Handler.

Declare Scope handler_scope.
Delimit Scope handler_scope with handler.
Notation "x <- m ;; k" := (Handler.bind m (fun x => k))
  (at level 61, m at next level, right associativity) : handler_scope.
Notation "m ;; k" := (Handler.bind m (fun _ => k))
  (at level 61, right associativity) : handler_scope.

(* ===================================================================== *)
(** * The handlers registered in [main] *)
(* ===================================================================== *)

Section Handlers.
Import HTTP Handler.
Local Open Scope handler_scope.

Variable config : Config.
Variable env : Env.

(** ** The calls on [gfsBucket], with the faults of the environment *)

(** [gfsBucket.Find(filter)]: [None] is a non-nil [err]. *)
Definition gfs_Find (path value : string)
  : Handler.t (option (list GridFS.FileDoc)) :=
  log (CallFind path value) ;;
  b <- get_bucket ;;
  ret (if find_err (faults env) then None
       else Some (GridFS.Find path value b)).

(** [cursor.Next(ctx)] on a fresh cursor: the first document, if any. *)
Definition cursor_Next (cursor : list GridFS.FileDoc)
  : option GridFS.FileDoc := hd_error cursor.

(** [cursor.Decode(&fileDoc)]: [None] is a non-nil [err]. *)
Definition cursor_Decode (d : GridFS.FileDoc) : option GridFS.FileDoc :=
  if decode_err (faults env) then None else Some d.

(** A string field of the decoded [metadata]; an absent field leaves the
    struct field at its zero value. *)
Definition meta_field (key : string) (d : GridFS.FileDoc) : string :=
  match GridFS.lookup key (GridFS.Metadata d) with
  | Some v => v
  | None => EmptyString
  end.

(** [gfsBucket.OpenDownloadStream(id)] followed by reading it to the
    end. *)
Definition gfs_OpenDownloadStream (id : nat) : Handler.t (option (list byte)) :=
  log (CallOpenDownloadStream id) ;;
  b <- get_bucket ;;
  ret (if open_download_err (faults env) then None
       else option_map GridFS.Chunks (GridFS.find_id id b)).

Definition gfs_OpenUploadStream (filename : string) (meta : GridFS.M)
  : Handler.t (option GridFS.UploadStream) :=
  log (CallOpenUploadStream filename) ;;
  if open_upload_err (faults env) then ret None
  else
    b <- get_bucket ;;
    let '(us, b') := GridFS.OpenUploadStream filename meta b in
    put_bucket b' ;;
    ret (Some us).

(** [io.Copy(uploadStream, file)]: the stream after the copy and whether
    [err] is non-nil. *)
Definition io_Copy_upload (us : GridFS.UploadStream) (data : list byte)
  : Handler.t (GridFS.UploadStream * bool) :=
  match copy_err (faults env) with
  | None =>
      log (CallWrite (List.length data)) ;;
      ret (GridFS.WriteChunks us data, false)
  | Some (SourceFault n) =>
      log (CallWrite (List.length (firstn n data))) ;;
      ret (GridFS.WriteChunks us (firstn n data), true)
  | Some StoreFault =>
      log (CallWrite 0) ;;
      ret (us, true)
  end.

(** The deferred [uploadStream.Close()].  It is [Close] that flushes the
    buffered chunks and creates the file document, and it can fail on its
    own; the handler drops its error, so a failing [Close] leaves no
    document and changes nothing in the reply. *)
Definition us_Close (us : GridFS.UploadStream) : Handler.t unit :=
  log CallClose ;;
  if close_err (faults env) then ret tt
  else
    match copy_err (faults env) with
    | Some StoreFault => ret tt
    | _ => b <- get_bucket ;; put_bucket (GridFS.Close us b)
    end.

(** [gfsBucket.Delete(id)]: [false] is a non-nil [err]. *)
Definition gfs_Delete (id : nat) : Handler.t bool :=
  log (CallDelete id) ;;
  if delete_err (faults env) then ret false
  else
    b <- get_bucket ;;
    match GridFS.Delete id b with
    | Some b' => put_bucket b' ;; ret true
    | None => ret false
    end.

(** ** Writing responses *)

Definition http_Error {A} (msg : string) (code : Z) : Handler.t A :=
  reply (text_error msg code).

Definition http_NotFound {A} : Handler.t A :=
  http_Error "404 page not found" StatusNotFound.

Definition jsonError {A} (message : string) (status : Z) : Handler.t A :=
  reply (json_error message status).

Definition render {A} (template : string) (data : option ViewerData)
  : Handler.t A :=
  reply (mkResponse StatusOK [] (Page template data)).

(** ** [http.HandleFunc("/", ...)]: the index page and the viewer

    The templates belong to the presentation layer: they are taken to parse
    and to execute, and a page is recorded by its template and its data. *)

Definition handleRoot (r : Request) : Handler.t Empty_set :=
  if (Path r =? "/")%string then
    if negb (Method r =? MethodGet)%string
    then http_Error "method not allowed" StatusMethodNotAllowed
    else render "templates/index.html" None
  else
    fileID <- checked (GoString.slice_from 1 (Path r)) ;;
    if (fileID =? EmptyString)%string then http_NotFound
    else
      cursor <- gfs_Find "metadata.short_id" fileID ;;
      match cursor with
      | None => http_Error "file not found" StatusNotFound
      | Some cursor =>
          match cursor_Next cursor with
          | None => http_Error "file not found" StatusNotFound
          | Some d =>
              match cursor_Decode d with
              | None => http_Error "decode error" StatusInternalServerError
              | Some fileDoc =>
                  let fileType :=
                    getFileType (meta_field "content_type" fileDoc) in
                  size <- checked (formatSize (GridFS.Length fileDoc)) ;;
                  let data :=
                    mkViewerData fileID (GridFS.Filename fileDoc) size in
                  if (fileType =? "image")%string
                  then render "templates/viewer_image.html" (Some data)
                  else if (fileType =? "video")%string
                  then render "templates/viewer_video.html" (Some data)
                  else if (fileType =? "audio")%string
                  then render "templates/viewer_audio.html" (Some data)
                  else render "templates/viewer_file.html" (Some data)
              end
          end
      end.

(** ** [http.HandleFunc("/raw/", ...)]: the raw download *)

Definition handleRaw (r : Request) : Handler.t Empty_set :=
  fileID <- checked (GoString.slice_from (String.length "/raw/") (Path r)) ;;
  if (fileID =? EmptyString)%string then http_Error "no file id" StatusBadRequest
  else
    cursor <- gfs_Find "metadata.short_id" fileID ;;
    match cursor with
    | None => http_Error "file not found" StatusNotFound
    | Some cursor =>
        match cursor_Next cursor with
        | None => http_Error "file not found" StatusNotFound
        | Some d =>
            match cursor_Decode d with
            | None => http_Error "decode error" StatusInternalServerError
            | Some fileDoc =>
                stream <- gfs_OpenDownloadStream (GridFS.ID fileDoc) ;;
                match stream with
                | None =>
                    http_Error "download error" StatusInternalServerError
                | Some content =>
                    reply (mkResponse StatusOK
                      [("Content-Type", meta_field "content_type" fileDoc);
                       ("Content-Disposition",
                        "attachment; filename=" ++ GoString.dquote ++
                        GridFS.Filename fileDoc ++ GoString.dquote)]
                      (Bytes content))
                end
            end
        end
    end.

(** ** [http.HandleFunc("/upload", ...)]: ingest *)

Definition too_large_message : string :=
  "File too large (max " ++
  GoInt.itoa (Z.quot (MaxSize config) (1024 * 1024)) ++ " MB)".

Definition upload_response (shortID deleteToken : string)
  : list (string * string) :=
  [("deletion_link", BaseURL config ++ "/delete/" ++ deleteToken);
   ("link", BaseURL config ++ "/" ++ shortID)].

Definition handleUpload (r : Request) : Handler.t Empty_set :=
  if negb (Method r =? MethodPost)%string
  then jsonError "Method not allowed" StatusMethodNotAllowed
  else if negb (multipart_ok r)
  then jsonError "Bad request" StatusBadRequest
  else
    match form_file r with
    | None => jsonError "File not found" StatusBadRequest
    | Some file =>
        if MaxSize config <? fh_Size file
        then jsonError too_large_message StatusBadRequest
        else
          shortID <- checked (generateID (entropy env 0)) ;;
          token1 <- checked (generateID (entropy env 1)) ;;
          token2 <- checked (generateID (entropy env 2)) ;;
          let deleteToken := token1 ++ token2 in
          let contentType :=
            if (fh_ContentType file =? EmptyString)%string
            then "application/octet-stream"
            else fh_ContentType file in
          let opts :=
            [("short_id", shortID);
             ("delete_token", deleteToken);
             ("content_type", contentType)] in
          opened <- gfs_OpenUploadStream (fh_Filename file) opts ;;
          match opened with
          | None => jsonError "Upload error" StatusInternalServerError
          | Some uploadStream =>
              copied <- io_Copy_upload uploadStream (fh_data file) ;;
              let '(uploadStream, err) := copied in
              (* the deferred Close runs on either way out *)
              us_Close uploadStream ;;
              if err
              then jsonError "Write error" StatusInternalServerError
              else
                reply (mkResponse StatusOK
                         [("Content-Type", "application/json")]
                         (Json (upload_response shortID deleteToken)))
          end
    end.

(** ** [http.HandleFunc("/delete/", ...)]: revoke *)

Definition handleDelete (r : Request) : Handler.t Empty_set :=
  if negb (Method r =? MethodPost)%string &&
     negb (Method r =? MethodGet)%string
  then jsonError "Method not allowed" StatusMethodNotAllowed
  else
    deleteToken <-
      checked (GoString.slice_from (String.length "/delete/") (Path r)) ;;
    if (deleteToken =? EmptyString)%string
    then jsonError "No delete token" StatusBadRequest
    else
      cursor <- gfs_Find "metadata.delete_token" deleteToken ;;
      match cursor with
      | None => jsonError "File not found" StatusNotFound
      | Some cursor =>
          match cursor_Next cursor with
          | None => jsonError "File not found" StatusNotFound
          | Some d =>
              match cursor_Decode d with
              | None => jsonError "Decode error" StatusInternalServerError
              | Some fileDoc =>
                  ok <- gfs_Delete (GridFS.ID fileDoc) ;;
                  if ok
                  then
                    reply (mkResponse StatusOK
                             [("Content-Type", "application/json")]
                             (Json [("status", "deleted")]))
                  else jsonError "Delete error" StatusInternalServerError
              end
          end
      end.

(** ** The default [ServeMux] with the patterns registered in [main]

    A pattern ending in a slash matches every path below it, any other
    pattern matches one path, and the longest matching pattern wins; a
    path that is a registered subtree without its slash is redirected.
    Requests are taken with a path that is already clean. *)

Definition static_page {A} (what : string) : Handler.t A :=
  reply (mkResponse StatusOK [] (Static what)).

Definition serve (r : Request) : Handler.t Empty_set :=
  let p := Path r in
  if GoString.HasPrefix p "/static/" then static_page p
  else if GoString.HasPrefix p "/delete/" then handleDelete r
  else if GoString.HasPrefix p "/raw/" then handleRaw r
  else if (p =? "/integrations")%string
  then render "templates/integrations.html" None
  else if (p =? "/deployment")%string
  then render "templates/deployment.html" None
  else if (p =? "/favicon.ico")%string then static_page "static/favicon.ico"
  else if (p =? "/upload")%string then handleUpload r
  else if (p =? "/static")%string || (p =? "/delete")%string ||
          (p =? "/raw")%string
  then reply (mkResponse StatusMovedPermanently
                [("Location", p ++ "/")] (MovedTo (p ++ "/")))
  else handleRoot r.

End Handlers.

(** One request served on a bucket: the outcome, the bucket afterwards and
    the calls made on the store. *)
Definition serve_on (config : Config) (env : Env) (r : HTTP.Request)
  (b : GridFS.Bucket) : HTTP.Outcome * GridFS.Bucket * list StoreCall :=
  Handler.run (serve config env r) b.

(** A run of the server: requests served one after the other, each in its
    own environment. *)
Fixpoint serve_all (config : Config) (reqs : list (Env * HTTP.Request))
  (b : GridFS.Bucket) : GridFS.Bucket :=
  match reqs with
  | [] => b
  | (env, r) :: rest =>
      serve_all config rest (snd (fst (serve_on config env r b)))
  end.

(** ** Requests as a client sends them *)

Definition GET (path : string) : HTTP.Request :=
  HTTP.mkRequest HTTP.MethodGet path false None.

Definition POST (path : string) : HTTP.Request :=
  HTTP.mkRequest HTTP.MethodPost path false None.

Definition POST_upload (file : HTTP.FormFile) : HTTP.Request :=
  HTTP.mkRequest HTTP.MethodPost "/upload" true (Some file).

(** A part as the multipart reader delivers it: [Size] is the number of
    bytes read. *)
Definition part (filename contentType : string) (data : list byte)
  : HTTP.FormFile :=
  HTTP.mkFormFile filename contentType (Z.of_nat (List.length data)) data.

Definition calm (rand : nat -> list byte) : Env := mkEnv no_faults rand.

(** ** Notions used to state the properties *)

(** The identifier [generateID] returns, as a total function. *)
Definition id_of (supplied : list byte) : string :=
  match generateID supplied with
  | Some s => s
  | None => EmptyString
  end.

(** An identifier of [n] characters over the URL-safe alphabet. *)
Definition id_shape (n : nat) (s : string) : bool :=
  Nat.eqb (String.length s) n && GoString.all_chars Base64.in_alphabet s.

(** The unit letter of magnitude [e]. *)
Definition unit_letter (e : nat) : ascii :=
  nth e ["K"; "M"; "G"; "T"; "P"; "E"]%char zero.

(** The handler registered for ["/"], run on its own: the viewer lookup. *)
Definition view_on (env : Env) (r : HTTP.Request) (b : GridFS.Bucket)
  : HTTP.Outcome * GridFS.Bucket * list StoreCall :=
  Handler.run (handleRoot env r) b.

(** The value a document carries in a metadata field. *)
Definition tagged (key value : string) (d : GridFS.FileDoc) : Prop :=
  GridFS.lookup key (GridFS.Metadata d) = Some value.

(** The methods the delete handler accepts. *)
Definition deletes (m : string) : bool :=
  (m =? HTTP.MethodPost)%string || (m =? HTTP.MethodGet)%string.

(** The first document a cursor over [Find(filter)] yields. *)
Definition first_match (path value : string) (b : GridFS.Bucket)
  : option GridFS.FileDoc :=
  hd_error (GridFS.Find path value b).

(** The content type an upload is stored with. *)
Definition stored_content_type (file : HTTP.FormFile) : string :=
  if (HTTP.fh_ContentType file =? EmptyString)%string
  then "application/octet-stream"
  else HTTP.fh_ContentType file.

(** The delete token of an upload served in environment [env]. *)
Definition token_of (env : Env) : string :=
  id_of (entropy env 1) ++ id_of (entropy env 2).

(** The metadata an upload served in environment [env] is tagged with. *)
Definition upload_metadata (env : Env) (file : HTTP.FormFile) : GridFS.M :=
  [("short_id", id_of (entropy env 0));
   ("delete_token", token_of env);
   ("content_type", stored_content_type file)].

(** The document a closed upload stream leaves in the bucket. *)
Definition stored_doc (env : Env) (file : HTTP.FormFile) (id : nat)
  (data : list byte) : GridFS.FileDoc :=
  GridFS.mkFileDoc id (HTTP.fh_Filename file) (Z.of_nat (List.length data))
    (upload_metadata env file) data.

(** The four ways one request can leave the bucket: untouched, one id
    deleted, one ObjectID used up without a document, one upload stored. *)
Inductive effect (env : Env) (r : HTTP.Request) (b : GridFS.Bucket)
  : GridFS.Bucket -> Prop :=
| eff_none : effect env r b b
| eff_delete (id : nat) :
    effect env r b
      (GridFS.mkBucket
         (filter (fun d => negb (GridFS.has_id id d)) (GridFS.files b))
         (GridFS.next_oid b))
| eff_alloc :
    effect env r b (GridFS.mkBucket (GridFS.files b) (S (GridFS.next_oid b)))
| eff_store (file : HTTP.FormFile) (data : list byte) :
    HTTP.Path r = "/upload" ->
    HTTP.form_file r = Some file ->
    effect env r b
      (GridFS.mkBucket
         (GridFS.files b ++ [stored_doc env file (GridFS.next_oid b) data])%list
         (S (GridFS.next_oid b))).

(** A document tagged the way [handleUpload] tags it. *)
Definition well_tagged (d : GridFS.FileDoc) : Prop :=
  exists sid tok ct,
    GridFS.Metadata d =
      [("short_id", sid); ("delete_token", tok); ("content_type", ct)] /\
    id_shape 5 sid = true /\ id_shape 10 tok = true.

(** The invariant of the bucket: ObjectIDs are below the next one and
    pairwise distinct, and every document is tagged by an upload. *)
Record wf_bucket (b : GridFS.Bucket) : Prop := mk_wf {
  wf_below : Forall (fun d => (GridFS.ID d < GridFS.next_oid b)%nat)
                    (GridFS.files b);
  wf_nodup : NoDup (map GridFS.ID (GridFS.files b));
  wf_tagged : Forall well_tagged (GridFS.files b)
}.

(** The round trip as the specification words it: whatever was uploaded
    before, an upload answered with 200 can be downloaded again under the
    short id it was given, with the bytes and the content type it was stored
    with. *)
Definition round_trip_claim : Prop :=
  forall config reqs env file env',
    let b := serve_all config reqs GridFS.empty in
    let up := serve_on config env (POST_upload file) b in
    HTTP.status_of (fst (fst up)) = Some HTTP.StatusOK ->
    faults env' = no_faults ->
    exists hdr,
      fst (fst (serve_on config env'
                  (GET ("/raw/" ++ id_of (entropy env 0))) (snd (fst up))))
      = HTTP.Responded
          (HTTP.mkResponse HTTP.StatusOK hdr (HTTP.Bytes (HTTP.fh_data file)))
      /\ GridFS.lookup "Content-Type" hdr = Some (stored_content_type file).

(** An upload that is given short id [sid] or delete token [tok] again. *)
Definition reissues (env : Env) (r : HTTP.Request) (sid tok : string) : bool :=
  (HTTP.Path r =? "/upload")%string &&
  ((id_of (entropy env 0) =? sid)%string || (token_of env =? tok)%string).

(** No document carries short id [sid], delete token [tok] or ObjectID
    [id], and [id] has been handed out already. *)
Definition gone (sid tok : string) (id : nat) (b : GridFS.Bucket) : Prop :=
  (forall d, In d (GridFS.files b) ->
     ~ tagged "short_id" sid d /\ ~ tagged "delete_token" tok d /\
     GridFS.ID d <> id) /\
  (id < GridFS.next_oid b)%nat.

(** ObjectID [id] has been handed out and names no document. *)
Definition retired (id : nat) (b : GridFS.Bucket) : Prop :=
  (forall d, In d (GridFS.files b) -> GridFS.ID d <> id) /\
  (id < GridFS.next_oid b)%nat.

(** Single deletion as the specification words it, for two of the requests
    it lists: once a revoke with the delete token of a stored file was
    answered 200, a second revoke with that token and a download under the
    file's short id, both served without a store fault, are answered 404. *)
Definition single_deletion_claim : Prop :=
  forall config reqs d sid tok env1 env2 env3,
    let b := serve_all config reqs GridFS.empty in
    let del := serve_on config env1 (GET ("/delete/" ++ tok)) b in
    In d (GridFS.files b) ->
    tagged "short_id" sid d -> tagged "delete_token" tok d ->
    HTTP.status_of (fst (fst del)) = Some HTTP.StatusOK ->
    faults env2 = no_faults -> faults env3 = no_faults ->
    HTTP.status_of
      (fst (fst (serve_on config env2 (GET ("/delete/" ++ tok)) (snd (fst del)))))
      = Some HTTP.StatusNotFound /\
    HTTP.status_of
      (fst (fst (serve_on config env3 (GET ("/raw/" ++ sid)) (snd (fst del)))))
      = Some HTTP.StatusNotFound.

(** The template the viewer executes for a file of kind [kind]. *)
Definition viewer_template (kind : string) : string :=
  "templates/viewer_" ++ kind ++ ".html".

(** Every document records as its length the number of bytes it holds. *)
Definition sized (b : GridFS.Bucket) : Prop :=
  forall d, In d (GridFS.files b) ->
    GridFS.Length d = Z.of_nat (List.length (GridFS.Chunks d)).

(** The statuses [jsonError] is called with. *)
Definition json_error_statuses : list Z :=
  [HTTP.StatusBadRequest; HTTP.StatusNotFound; HTTP.StatusMethodNotAllowed;
   HTTP.StatusInternalServerError].

(** A reply of a JSON endpoint: success, or the error shape. *)
Definition json_reply (o : HTTP.Outcome) : Prop :=
  exists resp,
    o = HTTP.Responded resp /\
    GridFS.lookup "Content-Type" (HTTP.Header resp) = Some "application/json" /\
    (HTTP.Status resp = HTTP.StatusOK \/
     exists message status,
       resp = HTTP.json_error message status /\ In status json_error_statuses).

(** The position of the first occurrence of a character in a string (the
    length of the string when there is none). *)
Fixpoint position (c : ascii) (s : string) : nat :=
  match s with
  | EmptyString => O
  | String d r => if Ascii.eqb c d then O else S (position c r)
  end.

(** The thirty bits of a four-byte draw that its identifier depends on. *)
Definition kept_bits (b0 b1 b2 b3 : byte) : Z :=
  Base64.byte_val b0 * 2 ^ 22 + Base64.byte_val b1 * 2 ^ 14 +
  Base64.byte_val b2 * 2 ^ 6 + Z.shiftr (Base64.byte_val b3) 2.

(* ===================================================================== *)
(** * Facts about the library models *)
(* ===================================================================== *)

Module GoIntFacts.
Import GoInt.

Lemma in_int64b_spec x : in_int64b x = true <-> in_int64 x.
Proof.
  unfold in_int64b, in_int64.
  rewrite andb_true_iff, !Z.leb_le. tauto.
Qed.

Lemma wrap64_id x : in_int64 x -> wrap64 x = x.
Proof.
  unfold in_int64, min_int64, max_int64, wrap64. intros H.
  rewrite Z.mod_small by lia. lia.
Qed.

End GoIntFacts.

Module GoStringFacts.
Import GoString.

Lemma HasPrefix_app pre rest : HasPrefix (pre ++ rest) pre = true.
Proof.
  unfold HasPrefix. induction pre as [|c pre IH]; simpl.
  - destruct rest; reflexivity.
  - destruct (ascii_dec c c); [exact IH | congruence].
Qed.

Lemma HasPrefix_inv s pre :
  HasPrefix s pre = true -> exists rest, s = pre ++ rest.
Proof.
  unfold HasPrefix. revert s.
  induction pre as [|c pre IH]; intros s H; simpl in *.
  - exists s. reflexivity.
  - destruct s as [|d s]; [discriminate H|]. simpl in H.
    destruct (ascii_dec c d) as [->|]; [|discriminate H].
    destruct (IH s H) as [rest ->]. exists rest. reflexivity.
Qed.

Lemma all_chars_app p a b :
  all_chars p (a ++ b) = all_chars p a && all_chars p b.
Proof.
  induction a as [|c a IH]; simpl; [reflexivity|].
  rewrite IH, andb_assoc. reflexivity.
Qed.

Lemma append_assoc a b c : (a ++ b) ++ c = a ++ (b ++ c).
Proof. induction a; simpl; congruence. Qed.

Lemma length_app a b :
  String.length (a ++ b) = (String.length a + String.length b)%nat.
Proof. induction a; simpl; congruence. Qed.

Lemma mem_char_get s i c : String.get i s = Some c -> mem_char c s = true.
Proof.
  revert i. induction s as [|d s IH]; intros i H; simpl in *.
  - discriminate.
  - destruct i as [|i].
    + injection H as ->. rewrite Ascii.eqb_refl. reflexivity.
    + rewrite (IH i H). apply orb_true_r.
Qed.

End GoStringFacts.

Module Base64Facts.
Import Base64.

Lemma sextet_in_alphabet v shift : in_alphabet (sextet v shift) = true.
Proof.
  unfold sextet, in_alphabet.
  destruct (String.get _ encodeURL) as [c|] eqn:E.
  - exact (GoStringFacts.mem_char_get _ _ _ E).
  - exfalso.
    assert (Hr : 0 <= Z.land (Z.shiftr v shift) 63 < 64).
    { change 63 with (Z.ones 6). rewrite Z.land_ones by lia.
      apply Z.mod_pos_bound. lia. }
    remember (Z.to_nat (Z.land (Z.shiftr v shift) 63)) as i.
    assert (Hi : (i < 64)%nat) by lia.
    clear - E Hi.
    do 64 (destruct i as [|i]; [discriminate E|]). lia.
Qed.

End Base64Facts.

Module CryptoRandFacts.
Import CryptoRand.

Lemma Read_length supplied b :
  List.length (fst (Read supplied b)) = List.length b.
Proof.
  unfold Read; simpl.
  rewrite List.length_app, List.length_firstn, List.length_skipn. lia.
Qed.

End CryptoRandFacts.

(* ===================================================================== *)
(** * Identifiers *)
(* ===================================================================== *)

Example formatSize_samples :
  formatSize 0 = Some "0 B" /\ formatSize 1023 = Some "1023 B" /\
  formatSize 1536 = Some "1.5 KB" /\ formatSize 1048576 = Some "1.0 MB" /\
  formatSize (-7) = Some "-7 B" /\
  formatSize GoInt.max_int64 = Some "8.0 EB".
Proof. repeat split; vm_compute; reflexivity. Qed.

Example generateID_samples :
  generateID [x00; x00; x00; x00] = Some "AAAAA" /\
  generateID [xff; xff; xff; xff] = Some "_____" /\
  generateID [xfb; xf0; x12; x34] = Some "-_ASN" /\
  generateID [] = Some "AAAAA".
Proof. repeat split; vm_compute; reflexivity. Qed.

Lemma four_bytes (l : list byte) :
  List.length l = 4%nat -> exists b0 b1 b2 b3, l = [b0; b1; b2; b3].
Proof.
  destruct l as [|b0 [|b1 [|b2 [|b3 [|b4 l]]]]]; simpl; try discriminate.
  intros _. now exists b0, b1, b2, b3.
Qed.

Lemma buffer_four supplied :
  exists b0 b1 b2 b3,
    fst (CryptoRand.Read supplied (CryptoRand.make 4)) = [b0; b1; b2; b3].
Proof. apply four_bytes. rewrite CryptoRandFacts.Read_length. reflexivity. Qed.

(** The encoding of the four-byte buffer has six characters, so the slice
    [[:5]] is always in range. *)
Lemma encoded_buffer_length supplied :
  String.length
    (Base64.EncodeToString (fst (CryptoRand.Read supplied (CryptoRand.make 4))))
  = 6%nat.
Proof.
  destruct (buffer_four supplied) as (b0 & b1 & b2 & b3 & ->). reflexivity.
Qed.

Lemma generateID_id_of supplied : generateID supplied = Some (id_of supplied).
Proof.
  unfold id_of, generateID, GoString.slice_to.
  rewrite encoded_buffer_length. reflexivity.
Qed.

Lemma id_of_shape supplied : id_shape 5 (id_of supplied) = true.
Proof.
  unfold id_of, generateID, GoString.slice_to.
  rewrite encoded_buffer_length.
  destruct (buffer_four supplied) as (b0 & b1 & b2 & b3 & ->).
  unfold id_shape. cbn [Base64.EncodeToString Nat.leb substring
    String.length Nat.eqb GoString.all_chars andb].
  rewrite !Base64Facts.sextet_in_alphabet. reflexivity.
Qed.

Lemma id_shape_app n m a b :
  id_shape n a = true -> id_shape m b = true -> id_shape (n + m) (a ++ b) = true.
Proof.
  unfold id_shape. rewrite !andb_true_iff, !Nat.eqb_eq.
  intros [Ha Ha'] [Hb Hb'].
  rewrite GoStringFacts.length_app, GoStringFacts.all_chars_app, Ha, Hb, Ha', Hb'.
  split; reflexivity.
Qed.

Lemma id_shape_length n s : id_shape n s = true -> String.length s = n.
Proof.
  unfold id_shape. rewrite andb_true_iff, Nat.eqb_eq. tauto.
Qed.

(* ===================================================================== *)
(** * The loop of [formatSize] *)
(* ===================================================================== *)

Section FormatSizeLoop.

Lemma loop_exit n div exp :
  n < size_unit -> formatSize_loop n div exp = (div, exp).
Proof.
  intros H. rewrite formatSize_loop_equation_1.
  destruct (Z_le_gt_dec size_unit n); [lia | reflexivity].
Qed.

Lemma loop_again n div exp :
  size_unit <= n ->
  formatSize_loop n div exp =
  formatSize_loop (Z.quot n size_unit) (GoInt.wrap64 (div * size_unit)) (S exp).
Proof.
  intros H. rewrite formatSize_loop_equation_1.
  destruct (Z_le_gt_dec size_unit n); [reflexivity | lia].
Qed.

(** After [k] rounds the divisor has been multiplied [k] times and the
    exponent counts the rounds, as long as the divisor stays an [int64]. *)
Lemma loop_rounds (k : nat) : forall n div exp,
  n < 1024 ^ (Z.of_nat k + 1) ->
  ((0 < k)%nat -> 1024 ^ Z.of_nat k <= n) ->
  0 < div -> div * 1024 ^ Z.of_nat k <= GoInt.max_int64 ->
  formatSize_loop n div exp = (div * 1024 ^ Z.of_nat k, (exp + k)%nat).
Proof.
  induction k as [|k IH]; intros n div exp Hhi Hlo Hdiv Hmax.
  - rewrite loop_exit by (unfold size_unit; simpl in Hhi; lia).
    simpl. f_equal; lia.
  - assert (Hpos : 0 < 1024 ^ Z.of_nat k) by (apply Z.pow_pos_nonneg; lia).
    assert (Hk : 1024 ^ Z.of_nat (S k) = 1024 * 1024 ^ Z.of_nat k).
    { rewrite Nat2Z.inj_succ, Z.pow_succ_r by lia. reflexivity. }
    assert (Hk' : 1024 ^ (Z.of_nat (S k) + 1)
                  = 1024 * 1024 ^ (Z.of_nat k + 1)).
    { rewrite Nat2Z.inj_succ.
      replace (Z.succ (Z.of_nat k) + 1) with (Z.succ (Z.of_nat k + 1)) by lia.
      rewrite Z.pow_succ_r by lia. reflexivity. }
    assert (Hn : 1024 * 1024 ^ Z.of_nat k <= n).
    { rewrite <- Hk. apply Hlo. lia. }
    rewrite loop_again by (unfold size_unit; lia).
    unfold size_unit. rewrite Z.quot_div_nonneg by lia.
    rewrite GoIntFacts.wrap64_id.
    2:{ unfold GoInt.in_int64, GoInt.min_int64, GoInt.max_int64 in *.
        rewrite Hk in Hmax. nia. }
    rewrite IH.
    + f_equal; [rewrite Hk; ring | lia].
    + apply Z.div_lt_upper_bound; [lia|]. rewrite <- Hk'. exact Hhi.
    + intros _. apply Z.div_le_lower_bound; lia.
    + lia.
    + rewrite Hk in Hmax. lia.
Qed.

End FormatSizeLoop.

Lemma formatSize_below_unit bytes :
  bytes < 1024 -> formatSize bytes = Some (GoInt.itoa bytes ++ " B").
Proof.
  intros H. unfold formatSize, size_unit.
  destruct (Z.ltb_spec bytes 1024); [reflexivity | lia].
Qed.

Lemma formatSize_loop_magnitude bytes (e : nat) :
  (e <= 5)%nat ->
  1024 ^ (Z.of_nat e + 1) <= bytes < 1024 ^ (Z.of_nat e + 2) ->
  formatSize_loop (Z.quot bytes size_unit) size_unit 0
  = (1024 ^ (Z.of_nat e + 1), e).
Proof.
  intros He [Hlo Hhi].
  assert (Hp : 0 < 1024 ^ Z.of_nat e) by (apply Z.pow_pos_nonneg; lia).
  assert (H1 : 1024 ^ (Z.of_nat e + 1) = 1024 * 1024 ^ Z.of_nat e).
  { rewrite Z.pow_add_r by lia. ring. }
  assert (H2 : 1024 ^ (Z.of_nat e + 2) = 1024 * 1024 ^ (Z.of_nat e + 1)).
  { replace (Z.of_nat e + 2) with (Z.succ (Z.of_nat e + 1)) by lia.
    rewrite Z.pow_succ_r by lia. reflexivity. }
  unfold size_unit. rewrite Z.quot_div_nonneg by lia.
  rewrite (loop_rounds e).
  - f_equal. rewrite H1. ring.
  - apply Z.div_lt_upper_bound; [lia|]. rewrite <- H2. exact Hhi.
  - intros _. apply Z.div_le_lower_bound; lia.
  - lia.
  - unfold GoInt.max_int64.
    assert (1024 ^ Z.of_nat e <= 1024 ^ 5) by (apply Z.pow_le_mono_r; lia).
    change (1024 ^ 5) with 1125899906842624 in *.
    change (2 ^ 63) with 9223372036854775808. lia.
Qed.

Lemma float64_of_unit_power (e : nat) :
  (e <= 5)%nat ->
  Fmt.float64_of_int (1024 ^ (Z.of_nat e + 1)) = 1024 ^ (Z.of_nat e + 1).
Proof.
  intros He.
  do 6 (destruct e as [|e]; [vm_compute; reflexivity|]). lia.
Qed.

Lemma index_unit_letter (e : nat) :
  (e <= 5)%nat -> GoString.index "KMGTPE" e = Some (unit_letter e).
Proof.
  intros He.
  do 6 (destruct e as [|e]; [reflexivity|]). lia.
Qed.

Lemma formatSize_magnitude bytes (e : nat) :
  (e <= 5)%nat ->
  1024 ^ (Z.of_nat e + 1) <= bytes < 1024 ^ (Z.of_nat e + 2) ->
  formatSize bytes =
  Some (Fmt.Sprintf_1f (Fmt.float64_of_int bytes) (1024 ^ (Z.of_nat e + 1))
        ++ " " ++ String (unit_letter e) "B").
Proof.
  intros He Hb. unfold formatSize.
  assert (1024 <= bytes).
  { destruct Hb as [Hlo _].
    assert (1024 ^ 1 <= 1024 ^ (Z.of_nat e + 1))
      by (apply Z.pow_le_mono_r; lia).
    rewrite Z.pow_1_r in *. lia. }
  destruct (Z.ltb_spec bytes size_unit); [unfold size_unit in *; lia|].
  rewrite (formatSize_loop_magnitude bytes e He Hb).
  rewrite (float64_of_unit_power e He), (index_unit_letter e He).
  reflexivity.
Qed.

(** Every [int64] of at least one unit has a magnitude between 0 and 5. *)
Lemma int64_magnitude bytes :
  GoInt.in_int64 bytes -> 1024 <= bytes ->
  exists e : nat,
    (e <= 5)%nat /\ 1024 ^ (Z.of_nat e + 1) <= bytes < 1024 ^ (Z.of_nat e + 2).
Proof.
  unfold GoInt.in_int64, GoInt.max_int64. intros [_ Hmax] Hmin.
  change (2 ^ 63) with 9223372036854775808 in Hmax.
  destruct (Z_lt_dec bytes (1024 ^ 2)); [exists 0%nat; simpl; lia|].
  destruct (Z_lt_dec bytes (1024 ^ 3)); [exists 1%nat; simpl; lia|].
  destruct (Z_lt_dec bytes (1024 ^ 4)); [exists 2%nat; simpl; lia|].
  destruct (Z_lt_dec bytes (1024 ^ 5)); [exists 3%nat; simpl; lia|].
  destruct (Z_lt_dec bytes (1024 ^ 6)); [exists 4%nat; simpl; lia|].
  exists 5%nat. simpl. lia.
Qed.

(* ===================================================================== *)
(** * What one request does *)
(* ===================================================================== *)

Lemma substring_all s : substring 0 (String.length s) s = s.
Proof. induction s as [|c s IH]; simpl; [reflexivity | now rewrite IH]. Qed.

Lemma string_eqb_empty s : (s =? EmptyString)%string = false <-> s <> EmptyString.
Proof. destruct s; simpl; split; congruence. Qed.

Ltac handler_step :=
  cbv [Handler.run Handler.bind Handler.ret Handler.reply Handler.panic
       Handler.checked Handler.log Handler.get_bucket Handler.put_bucket
       gfs_Find cursor_Next cursor_Decode gfs_OpenDownloadStream
       gfs_OpenUploadStream io_Copy_upload us_Close gfs_Delete
       http_Error http_NotFound jsonError render static_page
       bucket calls HTTP.Path HTTP.Method HTTP.multipart_ok HTTP.form_file
       List.app].

Ltac store_step :=
  handler_step;
  cbv [GridFS.Delete GridFS.OpenUploadStream GridFS.Close GridFS.WriteChunks
       GridFS.FileID GridFS.us_filename GridFS.us_metadata GridFS.us_written
       GridFS.files GridFS.next_oid List.app fst snd].

(** Case analysis on a test of the handler whose subject has no test inside
    it: the tests are taken in the order the handler makes them. *)
Ltac has_no_test x :=
  lazymatch x with
  | context [match _ with _ => _ end] => fail
  | _ => idtac
  end.

Ltac next_case :=
  match goal with
  | |- context [match ?x with _ => _ end] => has_no_test x; destruct x eqn:?
  end.

Ltac all_cases := repeat (store_step; next_case); store_step.

Section Serving.
Import HTTP Handler.
Variable config : Config.
Variable env : Env.

Lemma route_raw m ok ff x :
  serve config env (mkRequest m ("/raw/" ++ x) ok ff)
  = handleRaw env (mkRequest m ("/raw/" ++ x) ok ff).
Proof.
  unfold serve. cbn [Path].
  change (GoString.HasPrefix ("/raw/" ++ x) "/static/") with false.
  change (GoString.HasPrefix ("/raw/" ++ x) "/delete/") with false.
  rewrite GoStringFacts.HasPrefix_app. reflexivity.
Qed.

Lemma route_delete m ok ff x :
  serve config env (mkRequest m ("/delete/" ++ x) ok ff)
  = handleDelete env (mkRequest m ("/delete/" ++ x) ok ff).
Proof.
  unfold serve. cbn [Path].
  change (GoString.HasPrefix ("/delete/" ++ x) "/static/") with false.
  rewrite GoStringFacts.HasPrefix_app. reflexivity.
Qed.

Lemma route_upload m ok ff :
  serve config env (mkRequest m "/upload" ok ff)
  = handleUpload config env (mkRequest m "/upload" ok ff).
Proof. reflexivity. Qed.

Lemma slice_raw x : GoString.slice_from 5 ("/raw/" ++ x) = Some x.
Proof.
  unfold GoString.slice_from. simpl. now rewrite Nat.sub_0_r, substring_all.
Qed.

Lemma slice_delete x : GoString.slice_from 8 ("/delete/" ++ x) = Some x.
Proof.
  unfold GoString.slice_from. simpl. now rewrite Nat.sub_0_r, substring_all.
Qed.

Lemma slice_root x : GoString.slice_from 1 ("/" ++ x) = Some x.
Proof.
  unfold GoString.slice_from. simpl. now rewrite Nat.sub_0_r, substring_all.
Qed.

Lemma raw_not_found m ok ff x b :
  x <> EmptyString ->
  first_match "metadata.short_id" x b = None ->
  serve_on config env (mkRequest m ("/raw/" ++ x) ok ff) b =
  (Responded (text_error "file not found" StatusNotFound),
   b, [CallFind "metadata.short_id" x]).
Proof.
  unfold first_match.
  intros Hx Hnone. apply string_eqb_empty in Hx.
  unfold serve_on. rewrite route_raw. unfold handleRaw.
  handler_step. change (String.length "/raw/") with 5%nat.
  rewrite slice_raw, Hx. handler_step.
  destruct (find_err (faults env)); [reflexivity|].
  rewrite Hnone. reflexivity.
Qed.

Lemma raw_empty m ok ff b :
  serve_on config env (mkRequest m "/raw/" ok ff) b =
  (Responded (text_error "no file id" StatusBadRequest), b, []).
Proof. reflexivity. Qed.

Lemma first_match_in path value b d :
  first_match path value b = Some d ->
  In d (GridFS.files b) /\ GridFS.matches path value d = true.
Proof.
  unfold first_match, GridFS.Find. intros H.
  apply filter_In.
  destruct (filter (GridFS.matches path value) (GridFS.files b))
    as [|d' l] eqn:E; [discriminate|].
  injection H as ->. apply in_eq.
Qed.

Lemma first_match_none path value b :
  first_match path value b = None <->
  forall d, In d (GridFS.files b) -> GridFS.matches path value d = false.
Proof.
  unfold first_match, GridFS.Find. split.
  - intros H d Hd. destruct (GridFS.matches path value d) eqn:E; [|easy].
    assert (Hin : In d (filter (GridFS.matches path value) (GridFS.files b)))
      by (apply filter_In; auto).
    destruct (filter (GridFS.matches path value) (GridFS.files b));
      [destruct Hin | discriminate].
  - intros H.
    destruct (filter (GridFS.matches path value) (GridFS.files b))
      as [|d l] eqn:E; [reflexivity|].
    assert (Hin : In d (filter (GridFS.matches path value) (GridFS.files b)))
      by (rewrite E; apply in_eq).
    apply filter_In in Hin. destruct Hin as [Hin Hm].
    rewrite (H d Hin) in Hm. discriminate.
Qed.

Lemma raw_found m ok ff x b d d' :
  x <> EmptyString ->
  faults env = no_faults ->
  first_match "metadata.short_id" x b = Some d ->
  GridFS.find_id (GridFS.ID d) b = Some d' ->
  serve_on config env (mkRequest m ("/raw/" ++ x) ok ff) b =
  (Responded (mkResponse StatusOK
     [("Content-Type", meta_field "content_type" d);
      ("Content-Disposition",
       "attachment; filename=" ++ GoString.dquote ++
       GridFS.Filename d ++ GoString.dquote)]
     (Bytes (GridFS.Chunks d'))),
   b, [CallFind "metadata.short_id" x; CallOpenDownloadStream (GridFS.ID d)]).
Proof.
  unfold first_match.
  intros Hx Hf Hd Hid. apply string_eqb_empty in Hx.
  unfold serve_on. rewrite route_raw. unfold handleRaw.
  handler_step. change (String.length "/raw/") with 5%nat.
  rewrite slice_raw, Hx. handler_step.
  rewrite Hf. cbn [find_err decode_err open_download_err no_faults].
  rewrite Hd. handler_step. rewrite Hid. reflexivity.
Qed.

(** ** The delete handler *)

Lemma delete_method m :
  deletes m = true ->
  negb (m =? MethodPost)%string && negb (m =? MethodGet)%string = false.
Proof.
  unfold deletes. destruct (m =? MethodPost)%string, (m =? MethodGet)%string;
    simpl; congruence.
Qed.

Lemma delete_empty m ok ff b :
  deletes m = true ->
  serve_on config env (mkRequest m "/delete/" ok ff) b =
  (Responded (json_error "No delete token" StatusBadRequest), b, []).
Proof.
  intros Hm. unfold serve_on.
  change (serve config env (mkRequest m "/delete/" ok ff))
    with (serve config env (mkRequest m ("/delete/" ++ EmptyString) ok ff)).
  rewrite route_delete. unfold handleDelete.
  handler_step. rewrite (delete_method m Hm).
  change (String.length "/delete/") with 8%nat.
  rewrite slice_delete. reflexivity.
Qed.

Lemma delete_not_found m ok ff x b :
  deletes m = true ->
  x <> EmptyString ->
  first_match "metadata.delete_token" x b = None ->
  serve_on config env (mkRequest m ("/delete/" ++ x) ok ff) b =
  (Responded (json_error "File not found" StatusNotFound),
   b, [CallFind "metadata.delete_token" x]).
Proof.
  unfold first_match.
  intros Hm Hx Hnone. apply string_eqb_empty in Hx.
  unfold serve_on. rewrite route_delete. unfold handleDelete.
  handler_step. rewrite (delete_method m Hm).
  change (String.length "/delete/") with 8%nat.
  rewrite slice_delete, Hx. handler_step.
  destruct (find_err (faults env)); [reflexivity|].
  rewrite Hnone. reflexivity.
Qed.

Lemma find_id_in b d : In d (GridFS.files b) ->
  exists d', GridFS.find_id (GridFS.ID d) b = Some d'.
Proof.
  unfold GridFS.find_id. intros H.
  destruct (find (GridFS.has_id (GridFS.ID d)) (GridFS.files b))
    as [d'|] eqn:E; [now exists d'|].
  pose proof (find_none _ _ E d H) as Hn.
  unfold GridFS.has_id in Hn. now rewrite Nat.eqb_refl in Hn.
Qed.

Lemma delete_found m ok ff x b d :
  deletes m = true ->
  x <> EmptyString ->
  faults env = no_faults ->
  first_match "metadata.delete_token" x b = Some d ->
  serve_on config env (mkRequest m ("/delete/" ++ x) ok ff) b =
  (Responded (mkResponse StatusOK [("Content-Type", "application/json")]
                (Json [("status", "deleted")])),
   GridFS.mkBucket
     (filter (fun f => negb (GridFS.has_id (GridFS.ID d) f)) (GridFS.files b))
     (GridFS.next_oid b),
   [CallFind "metadata.delete_token" x; CallDelete (GridFS.ID d)]).
Proof.
  intros Hm Hx Hf Hd.
  destruct (first_match_in _ _ _ _ Hd) as [Hin _].
  destruct (find_id_in b d Hin) as [d' Hid].
  unfold first_match in Hd. apply string_eqb_empty in Hx.
  unfold serve_on. rewrite route_delete. unfold handleDelete.
  handler_step. rewrite (delete_method m Hm).
  change (String.length "/delete/") with 8%nat.
  rewrite slice_delete, Hx. handler_step.
  rewrite Hf. cbn [find_err decode_err delete_err no_faults].
  rewrite Hd. handler_step. unfold GridFS.Delete. rewrite Hid.
  reflexivity.
Qed.

(** ** The upload handler *)

Lemma upload_too_large file b :
  MaxSize config < fh_Size file ->
  serve_on config env (POST_upload file) b =
  (Responded (json_error (too_large_message config) StatusBadRequest), b, []).
Proof.
  intros H. unfold serve_on, POST_upload. rewrite route_upload.
  unfold handleUpload. handler_step.
  change (negb (MethodPost =? MethodPost)%string) with false.
  cbn [negb].
  destruct (Z.ltb_spec (MaxSize config) (fh_Size file)); [reflexivity | lia].
Qed.

Lemma upload_open_fails file b :
  fh_Size file <= MaxSize config ->
  open_upload_err (faults env) = true ->
  serve_on config env (POST_upload file) b =
  (Responded (json_error "Upload error" StatusInternalServerError), b,
   [CallOpenUploadStream (fh_Filename file)]).
Proof.
  intros H Ho. unfold serve_on, POST_upload. rewrite route_upload.
  unfold handleUpload. handler_step.
  change (negb (MethodPost =? MethodPost)%string) with false.
  cbn [negb].
  destruct (Z.ltb_spec (MaxSize config) (fh_Size file)); [lia|].
  rewrite !generateID_id_of. handler_step. rewrite Ho. reflexivity.
Qed.

Lemma upload_stored file b :
  fh_Size file <= MaxSize config ->
  open_upload_err (faults env) = false ->
  copy_err (faults env) = None ->
  close_err (faults env) = false ->
  serve_on config env (POST_upload file) b =
  (Responded (mkResponse StatusOK [("Content-Type", "application/json")]
     (Json (upload_response config (id_of (entropy env 0)) (token_of env)))),
   GridFS.mkBucket
     (GridFS.files b ++
      [stored_doc env file (GridFS.next_oid b) (fh_data file)])%list
     (S (GridFS.next_oid b)),
   [CallOpenUploadStream (fh_Filename file);
    CallWrite (List.length (fh_data file)); CallClose]).
Proof.
  intros H Ho Hc Hcl. unfold serve_on, POST_upload. rewrite route_upload.
  unfold handleUpload. handler_step.
  change (negb (MethodPost =? MethodPost)%string) with false.
  cbn [negb].
  destruct (Z.ltb_spec (MaxSize config) (fh_Size file)); [lia|].
  rewrite !generateID_id_of. handler_step. rewrite Ho.
  cbv [GridFS.OpenUploadStream]. handler_step. rewrite Hc, Hcl.
  reflexivity.
Qed.

(** The copy went through and the deferred [Close] failed: the reply is the
    200 with both links all the same, and no document was created. *)
Lemma upload_unfinished file b :
  fh_Size file <= MaxSize config ->
  open_upload_err (faults env) = false ->
  copy_err (faults env) = None ->
  close_err (faults env) = true ->
  serve_on config env (POST_upload file) b =
  (Responded (mkResponse StatusOK [("Content-Type", "application/json")]
     (Json (upload_response config (id_of (entropy env 0)) (token_of env)))),
   GridFS.mkBucket (GridFS.files b) (S (GridFS.next_oid b)),
   [CallOpenUploadStream (fh_Filename file);
    CallWrite (List.length (fh_data file)); CallClose]).
Proof.
  intros H Ho Hc Hcl. unfold serve_on, POST_upload. rewrite route_upload.
  unfold handleUpload. handler_step.
  change (negb (MethodPost =? MethodPost)%string) with false.
  cbn [negb].
  destruct (Z.ltb_spec (MaxSize config) (fh_Size file)); [lia|].
  rewrite !generateID_id_of. handler_step. rewrite Ho.
  cbv [GridFS.OpenUploadStream]. handler_step. rewrite Hc, Hcl.
  reflexivity.
Qed.

Lemma upload_source_fault file b n :
  fh_Size file <= MaxSize config ->
  open_upload_err (faults env) = false ->
  copy_err (faults env) = Some (SourceFault n) ->
  close_err (faults env) = false ->
  serve_on config env (POST_upload file) b =
  (Responded (json_error "Write error" StatusInternalServerError),
   GridFS.mkBucket
     (GridFS.files b ++
      [stored_doc env file (GridFS.next_oid b) (firstn n (fh_data file))])%list
     (S (GridFS.next_oid b)),
   [CallOpenUploadStream (fh_Filename file);
    CallWrite (List.length (firstn n (fh_data file))); CallClose]).
Proof.
  intros H Ho Hc Hcl. unfold serve_on, POST_upload. rewrite route_upload.
  unfold handleUpload. handler_step.
  change (negb (MethodPost =? MethodPost)%string) with false.
  cbn [negb].
  destruct (Z.ltb_spec (MaxSize config) (fh_Size file)); [lia|].
  rewrite !generateID_id_of. handler_step. rewrite Ho.
  cbv [GridFS.OpenUploadStream]. handler_step. rewrite Hc, Hcl.
  reflexivity.
Qed.

Lemma upload_source_fault_unfinished file b n :
  fh_Size file <= MaxSize config ->
  open_upload_err (faults env) = false ->
  copy_err (faults env) = Some (SourceFault n) ->
  close_err (faults env) = true ->
  serve_on config env (POST_upload file) b =
  (Responded (json_error "Write error" StatusInternalServerError),
   GridFS.mkBucket (GridFS.files b) (S (GridFS.next_oid b)),
   [CallOpenUploadStream (fh_Filename file);
    CallWrite (List.length (firstn n (fh_data file))); CallClose]).
Proof.
  intros H Ho Hc Hcl. unfold serve_on, POST_upload. rewrite route_upload.
  unfold handleUpload. handler_step.
  change (negb (MethodPost =? MethodPost)%string) with false.
  cbn [negb].
  destruct (Z.ltb_spec (MaxSize config) (fh_Size file)); [lia|].
  rewrite !generateID_id_of. handler_step. rewrite Ho.
  cbv [GridFS.OpenUploadStream]. handler_step. rewrite Hc, Hcl.
  reflexivity.
Qed.

Lemma upload_store_fault file b :
  fh_Size file <= MaxSize config ->
  open_upload_err (faults env) = false ->
  copy_err (faults env) = Some StoreFault ->
  serve_on config env (POST_upload file) b =
  (Responded (json_error "Write error" StatusInternalServerError),
   GridFS.mkBucket (GridFS.files b) (S (GridFS.next_oid b)),
   [CallOpenUploadStream (fh_Filename file); CallWrite 0; CallClose]).
Proof.
  intros H Ho Hc. unfold serve_on, POST_upload. rewrite route_upload.
  unfold handleUpload. handler_step.
  change (negb (MethodPost =? MethodPost)%string) with false.
  cbn [negb].
  destruct (Z.ltb_spec (MaxSize config) (fh_Size file)); [lia|].
  rewrite !generateID_id_of. handler_step. rewrite Ho.
  cbv [GridFS.OpenUploadStream]. handler_step. rewrite Hc.
  destruct (close_err (faults env)); reflexivity.
Qed.

(** An upload answered with 200 passed the size check and met no fault the
    handler tests; whether the deferred [Close] went through it does not
    tell. *)
Lemma upload_ok_inv file b :
  status_of (fst (fst (serve_on config env (POST_upload file) b)))
    = Some StatusOK ->
  fh_Size file <= MaxSize config /\
  open_upload_err (faults env) = false /\
  copy_err (faults env) = None.
Proof.
  intros H.
  destruct (Z_lt_le_dec (MaxSize config) (fh_Size file)) as [Hs|Hs].
  { rewrite (upload_too_large file b Hs) in H. discriminate H. }
  destruct (open_upload_err (faults env)) eqn:Ho.
  { rewrite (upload_open_fails file b Hs Ho) in H. discriminate H. }
  destruct (copy_err (faults env)) as [[n|]|] eqn:Hc.
  - destruct (close_err (faults env)) eqn:Hcl.
    + rewrite (upload_source_fault_unfinished file b n Hs Ho Hc Hcl) in H.
      discriminate H.
    + rewrite (upload_source_fault file b n Hs Ho Hc Hcl) in H.
      discriminate H.
  - rewrite (upload_store_fault file b Hs Ho Hc) in H. discriminate H.
  - auto.
Qed.

(** ** The effect of each handler on the bucket *)

Lemma handleRoot_effect r b :
  effect env r b (snd (fst (run (handleRoot env r) b))).
Proof.
  unfold handleRoot. all_cases; apply eff_none.
Qed.

Lemma handleRaw_effect r b :
  effect env r b (snd (fst (run (handleRaw env r) b))).
Proof.
  unfold handleRaw. all_cases; apply eff_none.
Qed.

Lemma handleDelete_effect r b :
  effect env r b (snd (fst (run (handleDelete env r) b))).
Proof.
  unfold handleDelete. all_cases;
    first [apply eff_none | apply eff_delete].
Qed.

Lemma eff_store_eq file data r b b' :
  Path r = "/upload" ->
  form_file r = Some file ->
  b' = GridFS.mkBucket
         (GridFS.files b ++ [stored_doc env file (GridFS.next_oid b) data])%list
         (S (GridFS.next_oid b)) ->
  effect env r b b'.
Proof. intros Hp Hf ->. now apply eff_store. Qed.

Lemma handleUpload_effect r b :
  Path r = "/upload" ->
  effect env r b (snd (fst (run (handleUpload config env r) b))).
Proof.
  intros Hp. unfold handleUpload. rewrite !generateID_id_of.
  all_cases;
    first [ apply eff_none | apply eff_alloc
          | match goal with
            | Hct : (fh_ContentType ?f =? EmptyString)%string = _
              |- effect _ _ _ (GridFS.mkBucket (_ ?fs [?d]) _) =>
                eapply (eff_store_eq f (GridFS.Chunks d));
                [ exact Hp | reflexivity
                | cbv [stored_doc upload_metadata stored_content_type
                       token_of GridFS.Chunks GridFS.files GridFS.next_oid];
                  rewrite Hct; reflexivity ]
            end ].
Qed.

Lemma serve_effect r b :
  effect env r b (snd (fst (serve_on config env r b))).
Proof.
  unfold serve_on, serve.
  destruct (GoString.HasPrefix (Path r) "/static/"); [apply eff_none|].
  destruct (GoString.HasPrefix (Path r) "/delete/");
    [apply handleDelete_effect|].
  destruct (GoString.HasPrefix (Path r) "/raw/"); [apply handleRaw_effect|].
  destruct (Path r =? "/integrations")%string; [apply eff_none|].
  destruct (Path r =? "/deployment")%string; [apply eff_none|].
  destruct (Path r =? "/favicon.ico")%string; [apply eff_none|].
  destruct (Path r =? "/upload")%string eqn:Hu.
  { apply handleUpload_effect. now apply String.eqb_eq. }
  destruct ((Path r =? "/static")%string || (Path r =? "/delete")%string
            || (Path r =? "/raw")%string); [apply eff_none|].
  apply handleRoot_effect.
Qed.

End Serving.

(* ===================================================================== *)
(** * The bucket invariant *)
(* ===================================================================== *)

(** Removing documents keeps the ObjectIDs pairwise distinct. *)
Lemma ids_distinct_after_filter (keep : GridFS.FileDoc -> bool)
  (docs : list GridFS.FileDoc) :
  NoDup (map GridFS.ID docs) -> NoDup (map GridFS.ID (filter keep docs)).
Proof.
  intros Hnd. induction docs as [|d docs IH]; [constructor|].
  cbn [map] in Hnd. apply NoDup_cons_iff in Hnd. destruct Hnd as [Hfresh Hnd].
  cbn [filter]. destruct (keep d); [|now apply IH].
  cbn [map]. apply NoDup_cons; [|now apply IH].
  intros Hin. apply Hfresh.
  apply in_map_iff in Hin. destruct Hin as (d' & Hid & Hin).
  apply filter_In in Hin. rewrite <- Hid. apply in_map. tauto.
Qed.

Lemma upload_well_tagged env file id data :
  well_tagged (stored_doc env file id data).
Proof.
  exists (id_of (entropy env 0)), (token_of env), (stored_content_type file).
  split; [reflexivity|]. split; [apply id_of_shape|].
  unfold token_of. apply (id_shape_app 5 5); apply id_of_shape.
Qed.

Lemma wf_empty : wf_bucket GridFS.empty.
Proof. split; simpl; constructor. Qed.

Lemma effect_wf env r b b' :
  wf_bucket b -> effect env r b b' -> wf_bucket b'.
Proof.
  intros [Hlt Hnd Htag] He. destruct He as [|id| |file data Hp Hf].
  - now split.
  - split; simpl.
    + apply Forall_forall. intros d Hd. apply filter_In in Hd.
      rewrite Forall_forall in Hlt. now apply Hlt.
    + now apply ids_distinct_after_filter.
    + apply Forall_forall. intros d Hd. apply filter_In in Hd.
      rewrite Forall_forall in Htag. now apply Htag.
  - split; simpl; auto.
    eapply Forall_impl; [|exact Hlt]. simpl. intros; lia.
  - split; simpl.
    + apply Forall_app. split.
      * eapply Forall_impl; [|exact Hlt]. simpl. intros; lia.
      * constructor; [simpl; lia | constructor].
    + rewrite map_app. simpl.
      apply NoDup_app; [exact Hnd | repeat constructor; intros [] |].
      intros x Hx [<-|[]]. apply in_map_iff in Hx.
      destruct Hx as (d & Hd & Hin). rewrite Forall_forall in Hlt.
      specialize (Hlt d Hin). lia.
    + apply Forall_app. split; [exact Htag|].
      constructor; [apply upload_well_tagged | constructor].
Qed.

Lemma serve_on_wf config env r b :
  wf_bucket b -> wf_bucket (snd (fst (serve_on config env r b))).
Proof. intros H. eapply effect_wf; [exact H | apply serve_effect]. Qed.

Lemma serve_all_wf config reqs : forall b,
  wf_bucket b -> wf_bucket (serve_all config reqs b).
Proof.
  induction reqs as [|[env r] reqs IH]; intros b H; simpl; [exact H|].
  apply IH. now apply serve_on_wf.
Qed.

(** Every bucket the server can reach from the empty one is well formed. *)
Lemma reachable_wf config reqs :
  wf_bucket (serve_all config reqs GridFS.empty).
Proof. apply serve_all_wf, wf_empty. Qed.

(** In a well-formed bucket an ObjectID names one document. *)
Lemma wf_find_id b d :
  wf_bucket b -> In d (GridFS.files b) ->
  GridFS.find_id (GridFS.ID d) b = Some d.
Proof.
  intros [_ Hnd _] Hin. unfold GridFS.find_id.
  induction (GridFS.files b) as [|a l IH]; [destruct Hin|].
  simpl in *. inversion Hnd as [|x xs Hnin Hnd']; subst.
  unfold GridFS.has_id at 1.
  destruct (Nat.eqb_spec (GridFS.ID a) (GridFS.ID d)) as [E|E].
  - destruct Hin as [->|Hin]; [reflexivity|].
    exfalso. apply Hnin. rewrite E. now apply in_map.
  - destruct Hin as [->|Hin]; [congruence | now apply IH].
Qed.

(* ===================================================================== *)
(** * Properties of the helpers *)
(* ===================================================================== *)

Lemma Read_enough b0 b1 b2 b3 rest :
  CryptoRand.Read (b0 :: b1 :: b2 :: b3 :: rest) (CryptoRand.make 4)
  = ([b0; b1; b2; b3], (4%nat, false)).
Proof.
  unfold CryptoRand.Read, CryptoRand.make. cbn [List.length repeat].
  replace (Nat.min (S (S (S (S (List.length rest))))) 4) with 4%nat by lia.
  reflexivity.
Qed.

(** C5 (identifier shape).  Every identifier [generateID] returns has exactly
    five characters of the URL-safe base64 alphabet; when the source supplies
    its four bytes it is the unpadded URL-safe encoding of those bytes cut to
    five characters.  An upload within the size limit whose stream opens and
    whose copy goes through is answered 200 with the links made of such an
    identifier and of the ten characters obtained by joining the results of
    two further calls, each on its own draw; and unless the deferred [Close]
    fails, the document it leaves in the bucket carries exactly these two as
    [short_id] and [delete_token]. *)
Theorem identifier_shape :
  (forall supplied, exists id,
      generateID supplied = Some id /\ id_shape 5 id = true) /\
  (forall b0 b1 b2 b3 rest,
      generateID (b0 :: b1 :: b2 :: b3 :: rest)
      = GoString.slice_to 5 (Base64.EncodeToString [b0; b1; b2; b3])) /\
  (forall config env file b,
      HTTP.fh_Size file <= MaxSize config ->
      open_upload_err (faults env) = false ->
      copy_err (faults env) = None ->
      exists sid t1 t2,
        generateID (entropy env 0) = Some sid /\
        generateID (entropy env 1) = Some t1 /\
        generateID (entropy env 2) = Some t2 /\
        id_shape 5 sid = true /\ id_shape 10 (t1 ++ t2) = true /\
        fst (fst (serve_on config env (POST_upload file) b))
          = HTTP.Responded
              (HTTP.mkResponse HTTP.StatusOK
                 [("Content-Type", "application/json")]
                 (HTTP.Json (upload_response config sid (t1 ++ t2)))) /\
        GridFS.files (snd (fst (serve_on config env (POST_upload file) b)))
          = if close_err (faults env) then GridFS.files b
            else (GridFS.files b ++
                  [GridFS.mkFileDoc (GridFS.next_oid b) (HTTP.fh_Filename file)
                     (Z.of_nat (List.length (HTTP.fh_data file)))
                     [("short_id", sid);
                      ("delete_token", (t1 ++ t2)%string);
                      ("content_type", stored_content_type file)]
                     (HTTP.fh_data file)])%list).
Proof.
  split; [|split].
  - intros supplied. exists (id_of supplied).
    split; [apply generateID_id_of | apply id_of_shape].
  - intros. unfold generateID. now rewrite Read_enough.
  - intros config env file b Hs Ho Hc.
    exists (id_of (entropy env 0)), (id_of (entropy env 1)),
      (id_of (entropy env 2)).
    rewrite !generateID_id_of.
    split; [reflexivity|]. split; [reflexivity|]. split; [reflexivity|].
    split; [apply id_of_shape|].
    split; [apply (id_shape_app 5 5); apply id_of_shape|].
    destruct (close_err (faults env)) eqn:Hcl.
    + rewrite (upload_unfinished config env file b Hs Ho Hc Hcl).
      split; reflexivity.
    + rewrite (upload_stored config env file b Hs Ho Hc Hcl).
      split; reflexivity.
Qed.

Lemma identifier_shape_witness :
  let config := mkConfig 1000 "http://x" in
  let env := calm (fun n => match n with
                            | O => [x01; x02; x03; x04]
                            | S O => [x05; x06; x07; x08]
                            | _ => [x09; x0a; x0b; x0c]
                            end) in
  let up := serve_on config env
              (POST_upload (part "a.txt" "text/plain" [x68; x69]))
              GridFS.empty in
  id_shape 5 "AQIDB" = true /\ id_shape 10 "BQYHCCQoLD" = true /\
  fst (fst up)
    = HTTP.Responded
        (HTTP.mkResponse 200 [("Content-Type", "application/json")]
           (HTTP.Json [("deletion_link", "http://x/delete/BQYHCCQoLD");
                       ("link", "http://x/AQIDB")])) /\
  GridFS.files (snd (fst up))
    = [GridFS.mkFileDoc 0 "a.txt" 2
         [("short_id", "AQIDB"); ("delete_token", "BQYHCCQoLD");
          ("content_type", "text/plain")]
         [x68; x69]].
Proof.
  intros config env up.
  destruct (proj2 (proj2 identifier_shape) config env
              (part "a.txt" "text/plain" [x68; x69]) GridFS.empty)
    as (sid & t1 & t2 & H0 & H1 & H2 & S5 & S10 & Hr & Hf).
  - simpl. lia.
  - reflexivity.
  - reflexivity.
  - vm_compute in H0, H1, H2.
    injection H0 as <-. injection H1 as <-. injection H2 as <-.
    split; [exact S5|]. split; [exact S10|]. split; [exact Hr | exact Hf].
Defined.

(** The tenths [Sprintf_1f] prints are the quotient rounded to the nearest
    tenth, and the digit after the point is a single decimal digit. *)
Lemma Sprintf_1f_rounds num den :
  0 <= num -> 0 < den ->
  exists t,
    Fmt.Sprintf_1f num den = GoInt.itoa (t / 10) ++ "." ++ GoInt.itoa (t mod 10)
    /\ 0 <= t mod 10 <= 9
    /\ 2 * Z.abs (10 * num - t * den) <= den.
Proof.
  intros Hn Hd. unfold Fmt.Sprintf_1f.
  set (q := 10 * num / den). set (r := (10 * num) mod den).
  assert (Hqr : 10 * num = den * q + r) by (apply Z.div_mod; lia).
  assert (Hr : 0 <= r < den) by (apply Z.mod_pos_bound; lia).
  destruct ((den <? 2 * r) || ((2 * r =? den) && Z.odd q)) eqn:E.
  - exists (q + 1). split; [reflexivity|].
    split; [pose proof (Z.mod_pos_bound (q + 1) 10); lia|].
    apply orb_true_iff in E. destruct E as [E|E].
    + apply Z.ltb_lt in E. lia.
    + apply andb_true_iff in E. destruct E as [E _]. apply Z.eqb_eq in E. lia.
  - exists q. split; [reflexivity|].
    split; [pose proof (Z.mod_pos_bound q 10); lia|].
    apply orb_false_iff in E. destruct E as [E _]. apply Z.ltb_ge in E. lia.
Qed.

(** C6 (size formatting).  [formatSize] prints a count below 1024 as the
    integer followed by [" B"]; an [int64] count of magnitude [e] (between
    [1024^(e+1)] and [1024^(e+2)], [e] at most 5) is divided by [1024^(e+1)],
    printed with one decimal and followed by the [e]-th of the letters
    K, M, G, T, P, E and ["B"].  In particular 0 gives ["0 B"], 1023 gives
    ["1023 B"], 1536 gives ["1.5 KB"] and 1048576 gives ["1.0 MB"]. *)
Theorem formatSize_binary_units :
  formatSize 0 = Some "0 B" /\
  formatSize 1023 = Some "1023 B" /\
  formatSize 1536 = Some "1.5 KB" /\
  formatSize 1048576 = Some "1.0 MB" /\
  map unit_letter [0; 1; 2; 3; 4; 5]%nat = ["K"; "M"; "G"; "T"; "P"; "E"]%char /\
  (forall bytes, 0 <= bytes < 1024 ->
     formatSize bytes = Some (GoInt.itoa bytes ++ " B")) /\
  (forall bytes, GoInt.in_int64 bytes -> 1024 <= bytes ->
     exists (e : nat) (t : Z),
       (e <= 5)%nat /\
       1024 ^ (Z.of_nat e + 1) <= bytes < 1024 ^ (Z.of_nat e + 2) /\
       formatSize bytes =
         Some (GoInt.itoa (t / 10) ++ "." ++ GoInt.itoa (t mod 10)
               ++ " " ++ String (unit_letter e) "B") /\
       0 <= t mod 10 <= 9 /\
       2 * Z.abs (10 * Fmt.float64_of_int bytes - t * 1024 ^ (Z.of_nat e + 1))
         <= 1024 ^ (Z.of_nat e + 1)).
Proof.
  split; [vm_compute; reflexivity|].
  split; [vm_compute; reflexivity|].
  split; [vm_compute; reflexivity|].
  split; [vm_compute; reflexivity|].
  split; [reflexivity|].
  split.
  - intros bytes H. apply formatSize_below_unit. lia.
  - intros bytes Hr Hb.
    destruct (int64_magnitude bytes Hr Hb) as (e & He & Hm).
    assert (Hp : 0 < 1024 ^ (Z.of_nat e + 1)) by (apply Z.pow_pos_nonneg; lia).
    assert (Hf : 0 <= Fmt.float64_of_int bytes).
    { unfold Fmt.float64_of_int.
      destruct (Z.log2 bytes - 52 <=? 0); [lia|].
      apply Z.shiftl_nonneg.
      assert (0 <= Z.shiftr bytes (Z.log2 bytes - 52))
        by (apply Z.shiftr_nonneg; lia).
      destruct (_ || _); lia. }
    destruct (Sprintf_1f_rounds _ _ Hf Hp) as (t & Ht & Hd & Hround).
    exists e, t.
    split; [exact He|]. split; [exact Hm|].
    split; [|split; [exact Hd | exact Hround]].
    rewrite (formatSize_magnitude bytes e He Hm), Ht.
    now rewrite !GoStringFacts.append_assoc.
Qed.

Lemma formatSize_binary_units_witness :
  formatSize 1000 = Some "1000 B" /\
  exists (e : nat) (t : Z),
    (e <= 5)%nat /\
    1024 ^ (Z.of_nat e + 1) <= 5000000 < 1024 ^ (Z.of_nat e + 2) /\
    formatSize 5000000 =
      Some (GoInt.itoa (t / 10) ++ "." ++ GoInt.itoa (t mod 10)
            ++ " " ++ String (unit_letter e) "B").
Proof.
  destruct formatSize_binary_units as (_ & _ & _ & _ & _ & Hsmall & Hbig).
  split.
  - apply (Hsmall 1000). lia.
  - destruct (Hbig 5000000) as (e & t & He & Hm & Hfmt & _).
    + unfold GoInt.in_int64, GoInt.min_int64, GoInt.max_int64. lia.
    + lia.
    + exists e, t. auto.
Defined.

(** C9 (totality of [formatSize]).  For every [int64] argument the loop
    leaves an exponent of at most 5, the index into ["KMGTPE"] is in range
    and [formatSize] returns a string; a negative argument is printed by the
    ["%d B"] branch. *)
Theorem formatSize_total (bytes : Z) :
  GoInt.in_int64 bytes ->
  (exists s, formatSize bytes = Some s) /\
  (snd (formatSize_loop (Z.quot bytes size_unit) size_unit 0) <= 5)%nat /\
  (exists c,
     GoString.index "KMGTPE"
       (snd (formatSize_loop (Z.quot bytes size_unit) size_unit 0)) = Some c) /\
  (bytes < 0 -> formatSize bytes = Some (GoInt.itoa bytes ++ " B")).
Proof.
  intros Hr.
  destruct (Z_lt_le_dec bytes 1024) as [Hlt|Hge].
  - assert (Hq : Z.quot bytes size_unit < size_unit).
    { unfold size_unit.
      destruct (Z_lt_le_dec bytes 0).
      - pose proof (Z.quot_opp_l (- bytes) 1024).
        assert (0 <= Z.quot (- bytes) 1024) by (apply Z.quot_pos; lia).
        rewrite Z.opp_involutive in *. lia.
      - rewrite Z.quot_small; lia. }
    rewrite (loop_exit _ _ _ Hq). cbn [snd].
    repeat split.
    + eexists. now apply formatSize_below_unit.
    + lia.
    + now exists "K"%char.
    + intros _. now apply formatSize_below_unit.
  - destruct (int64_magnitude bytes Hr Hge) as (e & He & Hm).
    rewrite (formatSize_loop_magnitude bytes e He Hm). cbn [snd].
    repeat split.
    + eexists. apply (formatSize_magnitude bytes e He Hm).
    + exact He.
    + exists (unit_letter e). now apply index_unit_letter.
    + lia.
Qed.

Lemma formatSize_total_witness :
  (exists s, formatSize GoInt.max_int64 = Some s) /\
  formatSize (-5) = Some "-5 B" /\
  formatSize GoInt.min_int64 = Some "-9223372036854775808 B".
Proof.
  assert (H1 : GoInt.in_int64 GoInt.max_int64) by (vm_compute; split; discriminate).
  assert (H2 : GoInt.in_int64 (-5)) by (vm_compute; split; discriminate).
  assert (H3 : GoInt.in_int64 GoInt.min_int64) by (vm_compute; split; discriminate).
  split; [exact (proj1 (formatSize_total _ H1))|].
  split.
  - apply (proj2 (proj2 (proj2 (formatSize_total _ H2)))). lia.
  - apply (proj2 (proj2 (proj2 (formatSize_total _ H3)))).
    unfold GoInt.min_int64. lia.
Defined.

(** Outside the [int64] range the index would leave the unit string: the
    range of the argument type is what keeps the index in bounds. *)
Example formatSize_beyond_int64 : formatSize (2 ^ 70) = None.
Proof. vm_compute. reflexivity. Qed.

(* ===================================================================== *)
(** * Properties of the upload path *)
(* ===================================================================== *)

(** C7 (content-type classification and defaulting).  A content type that
    starts with ["image/"], ["video/"] or ["audio/"] is classified as image,
    video or audio, every other string as file; an upload whose part carries
    a blank content type is stored with ["application/octet-stream"], which
    classifies as file: an upload within the size limit that meets no
    fault leaves exactly one new document, with the uploaded bytes and that
    content type. *)
Theorem content_type_classification :
  (forall rest, getFileType ("image/" ++ rest) = "image") /\
  (forall rest, getFileType ("video/" ++ rest) = "video") /\
  (forall rest, getFileType ("audio/" ++ rest) = "audio") /\
  (forall ct,
      (forall rest, ct <> "image/" ++ rest) ->
      (forall rest, ct <> "video/" ++ rest) ->
      (forall rest, ct <> "audio/" ++ rest) ->
      getFileType ct = "file") /\
  map getFileType
      ["image/png"; "video/mp4"; "audio/mpeg"; "application/pdf";
       "application/octet-stream"; EmptyString]
    = ["image"; "video"; "audio"; "file"; "file"; "file"] /\
  (forall config env file b,
      HTTP.fh_ContentType file = EmptyString ->
      HTTP.fh_Size file <= MaxSize config ->
      open_upload_err (faults env) = false ->
      copy_err (faults env) = None ->
      close_err (faults env) = false ->
      let d := GridFS.mkFileDoc (GridFS.next_oid b) (HTTP.fh_Filename file)
                 (Z.of_nat (List.length (HTTP.fh_data file)))
                 [("short_id", id_of (entropy env 0));
                  ("delete_token", token_of env);
                  ("content_type", "application/octet-stream")]
                 (HTTP.fh_data file) in
      HTTP.status_of (fst (fst (serve_on config env (POST_upload file) b)))
        = Some HTTP.StatusOK /\
      GridFS.files (snd (fst (serve_on config env (POST_upload file) b)))
        = (GridFS.files b ++ [d])%list /\
      getFileType (meta_field "content_type" d) = "file").
Proof.
  split; [|split; [|split; [|split; [|split]]]].
  - intros rest. unfold getFileType.
    now rewrite GoStringFacts.HasPrefix_app.
  - intros rest. unfold getFileType.
    change (GoString.HasPrefix ("video/" ++ rest) "image/") with false.
    now rewrite GoStringFacts.HasPrefix_app.
  - intros rest. unfold getFileType.
    change (GoString.HasPrefix ("audio/" ++ rest) "image/") with false.
    change (GoString.HasPrefix ("audio/" ++ rest) "video/") with false.
    now rewrite GoStringFacts.HasPrefix_app.
  - intros ct Hi Hv Ha. unfold getFileType.
    destruct (GoString.HasPrefix ct "image/") eqn:Ei.
    { destruct (GoStringFacts.HasPrefix_inv _ _ Ei) as [rest E].
      now destruct (Hi rest). }
    destruct (GoString.HasPrefix ct "video/") eqn:Ev.
    { destruct (GoStringFacts.HasPrefix_inv _ _ Ev) as [rest E].
      now destruct (Hv rest). }
    destruct (GoString.HasPrefix ct "audio/") eqn:Ea.
    { destruct (GoStringFacts.HasPrefix_inv _ _ Ea) as [rest E].
      now destruct (Ha rest). }
    reflexivity.
  - reflexivity.
  - intros config env file b Hct Hs Ho Hc Hcl d.
    rewrite (upload_stored config env file b Hs Ho Hc Hcl).
    split; [reflexivity|]. split; [|reflexivity].
    cbn [fst snd GridFS.files]. subst d.
    unfold stored_doc, upload_metadata, stored_content_type.
    rewrite Hct. reflexivity.
Qed.

Lemma content_type_classification_witness :
  let up := serve_on (mkConfig 1000 "http://x")
              (calm (fun _ => [x01; x02; x03; x04]))
              (POST_upload (part "a.bin" EmptyString [x68; x69]))
              GridFS.empty in
  getFileType "text/plain" = "file" /\
  HTTP.status_of (fst (fst up)) = Some 200 /\
  GridFS.files (snd (fst up))
    = [GridFS.mkFileDoc 0 "a.bin" 2
         [("short_id", "AQIDB"); ("delete_token", "AQIDBAQIDB");
          ("content_type", "application/octet-stream")]
         [x68; x69]].
Proof.
  intros up.
  destruct content_type_classification as (_ & _ & _ & Hfile & _ & Hblank).
  split.
  - apply Hfile; intros rest E; discriminate E.
  - destruct (Hblank (mkConfig 1000 "http://x")
                (calm (fun _ => [x01; x02; x03; x04]))
                (part "a.bin" EmptyString [x68; x69]) GridFS.empty)
      as (H200 & Hfiles & _).
    + reflexivity.
    + simpl. lia.
    + reflexivity.
    + reflexivity.
    + reflexivity.
    + split; [exact H200 | exact Hfiles].
Defined.

(** C3 (size limit).  An upload whose part is larger than the configured
    maximum is answered 400 with the "File too large" JSON error, without a
    single call on the store and with the bucket untouched; a part within
    the limit is not stopped there: the handler goes on to open the upload
    stream and never answers 400. *)
Theorem size_limit_enforced config env file b :
  (MaxSize config < HTTP.fh_Size file ->
     serve_on config env (POST_upload file) b =
     (HTTP.Responded
        (HTTP.json_error
           ("File too large (max " ++
            GoInt.itoa (Z.quot (MaxSize config) (1024 * 1024)) ++ " MB)")
           HTTP.StatusBadRequest),
      b, [])) /\
  (HTTP.fh_Size file <= MaxSize config ->
     exists rest,
       snd (serve_on config env (POST_upload file) b)
         = CallOpenUploadStream (HTTP.fh_Filename file) :: rest /\
       HTTP.status_of (fst (fst (serve_on config env (POST_upload file) b)))
         <> Some HTTP.StatusBadRequest).
Proof.
  split.
  - intros H. now apply upload_too_large.
  - intros H.
    destruct (open_upload_err (faults env)) eqn:Ho.
    { rewrite (upload_open_fails config env file b H Ho).
      eexists. split; [reflexivity | discriminate]. }
    destruct (copy_err (faults env)) as [[n|]|] eqn:Hc;
      [destruct (close_err (faults env)) eqn:Hcl| |
       destruct (close_err (faults env)) eqn:Hcl].
    + rewrite (upload_source_fault_unfinished config env file b n H Ho Hc Hcl).
      eexists. split; [reflexivity | discriminate].
    + rewrite (upload_source_fault config env file b n H Ho Hc Hcl).
      eexists. split; [reflexivity | discriminate].
    + rewrite (upload_store_fault config env file b H Ho Hc).
      eexists. split; [reflexivity | discriminate].
    + rewrite (upload_unfinished config env file b H Ho Hc Hcl).
      eexists. split; [reflexivity | discriminate].
    + rewrite (upload_stored config env file b H Ho Hc Hcl).
      eexists. split; [reflexivity | discriminate].
Qed.

Lemma size_limit_enforced_witness :
  serve_on (mkConfig 3 "http://x") (calm (fun _ => []))
    (POST_upload (part "big.bin" "text/plain" [x01; x02; x03; x04]))
    GridFS.empty
  = (HTTP.Responded
       (HTTP.json_error "File too large (max 0 MB)" HTTP.StatusBadRequest),
     GridFS.empty, []) /\
  exists rest,
    snd (serve_on (mkConfig 4 "http://x") (calm (fun _ => []))
           (POST_upload (part "fits.bin" "text/plain" [x01; x02; x03; x04]))
           GridFS.empty)
    = CallOpenUploadStream "fits.bin" :: rest.
Proof.
  split.
  - apply (proj1 (size_limit_enforced (mkConfig 3 "http://x")
                    (calm (fun _ => []))
                    (part "big.bin" "text/plain" [x01; x02; x03; x04])
                    GridFS.empty)).
    simpl. lia.
  - destruct (proj2 (size_limit_enforced (mkConfig 4 "http://x")
                       (calm (fun _ => []))
                       (part "fits.bin" "text/plain" [x01; x02; x03; x04])
                       GridFS.empty)) as (rest & H & _).
    + simpl. lia.
    + exists rest. exact H.
Defined.

(** C8, evaluated where the entropy source fails.  With a source that
    supplies no byte at all, [rand.Read] reports an error on each of the
    three calls, and still the upload is answered 200: the error is dropped
    and the identifiers are the encoding of the zeroed buffer.  A source
    that stops after one byte likewise yields a partly filled identifier. *)
Theorem entropy_failure_goes_unnoticed :
  let env := calm (fun _ => []) in
  let config := mkConfig 1000 "http://x" in
  CryptoRand.fails (entropy env 0) 4 = true /\
  CryptoRand.fails (entropy env 1) 4 = true /\
  CryptoRand.fails (entropy env 2) 4 = true /\
  serve_on config env (POST_upload (part "a.txt" "text/plain" [x68; x69]))
    GridFS.empty
  = (HTTP.Responded
       (HTTP.mkResponse HTTP.StatusOK [("Content-Type", "application/json")]
          (HTTP.Json [("deletion_link", "http://x/delete/AAAAAAAAAA");
                      ("link", "http://x/AAAAA")])),
     GridFS.mkBucket
       [GridFS.mkFileDoc 0 "a.txt" 2
          [("short_id", "AAAAA"); ("delete_token", "AAAAAAAAAA");
           ("content_type", "text/plain")]
          [x68; x69]]
       1,
     [CallOpenUploadStream "a.txt"; CallWrite 2; CallClose]) /\
  CryptoRand.fails [xff] 4 = true /\
  generateID [xff] = Some "_wAAA".
Proof.
  cbv zeta.
  split; [reflexivity|]. split; [reflexivity|]. split; [reflexivity|].
  split; [vm_compute; reflexivity|].
  split; [reflexivity | vm_compute; reflexivity].
Qed.

(* ===================================================================== *)
(** * Properties of the lookups *)
(* ===================================================================== *)

(** C10 (empty identifier).  [/raw/] with nothing after the slash is
    answered 400 "no file id", and [/delete/] with nothing after the slash,
    sent with GET or POST, is answered 400 with the JSON error "No delete
    token"; in both cases no call is made on the store and the bucket is
    untouched. *)
Theorem empty_identifier_rejected config env m ok ff b :
  serve_on config env (HTTP.mkRequest m "/raw/" ok ff) b
  = (HTTP.Responded (HTTP.text_error "no file id" HTTP.StatusBadRequest),
     b, []) /\
  serve_on config env (HTTP.mkRequest HTTP.MethodGet "/delete/" ok ff) b
  = (HTTP.Responded
       (HTTP.json_error "No delete token" HTTP.StatusBadRequest), b, []) /\
  serve_on config env (HTTP.mkRequest HTTP.MethodPost "/delete/" ok ff) b
  = (HTTP.Responded
       (HTTP.json_error "No delete token" HTTP.StatusBadRequest), b, []) /\
  HTTP.StatusBadRequest = 400.
Proof.
  split; [apply raw_empty|].
  split; [now apply delete_empty|].
  split; [now apply delete_empty | reflexivity].
Qed.

Section Lookups.
Import HTTP Handler.
Variable config : Config.
Variable env : Env.

Lemma matches_short_id x d :
  GridFS.matches "metadata.short_id" x d = true <-> tagged "short_id" x d.
Proof.
  unfold tagged.
  change (GridFS.matches "metadata.short_id" x d)
    with (match GridFS.lookup "short_id" (GridFS.Metadata d) with
          | Some v => (v =? x)%string
          | None => false
          end).
  destruct (GridFS.lookup "short_id" (GridFS.Metadata d)) as [v|].
  - rewrite String.eqb_eq. split; congruence.
  - split; discriminate.
Qed.

Lemma matches_delete_token x d :
  GridFS.matches "metadata.delete_token" x d = true
  <-> tagged "delete_token" x d.
Proof.
  unfold tagged.
  change (GridFS.matches "metadata.delete_token" x d)
    with (match GridFS.lookup "delete_token" (GridFS.Metadata d) with
          | Some v => (v =? x)%string
          | None => false
          end).
  destruct (GridFS.lookup "delete_token" (GridFS.Metadata d)) as [v|].
  - rewrite String.eqb_eq. split; congruence.
  - split; discriminate.
Qed.

Lemma no_short_id x b :
  (forall d, In d (GridFS.files b) -> ~ tagged "short_id" x d) ->
  first_match "metadata.short_id" x b = None.
Proof.
  intros H. apply first_match_none. intros d Hd.
  destruct (GridFS.matches "metadata.short_id" x d) eqn:E; [|reflexivity].
  apply matches_short_id in E. now destruct (H d Hd).
Qed.

Lemma no_delete_token x b :
  (forall d, In d (GridFS.files b) -> ~ tagged "delete_token" x d) ->
  first_match "metadata.delete_token" x b = None.
Proof.
  intros H. apply first_match_none. intros d Hd.
  destruct (GridFS.matches "metadata.delete_token" x d) eqn:E; [|reflexivity].
  apply matches_delete_token in E. now destruct (H d Hd).
Qed.

Lemma view_not_found m ok ff x b :
  x <> EmptyString ->
  first_match "metadata.short_id" x b = None ->
  view_on env (mkRequest m ("/" ++ x) ok ff) b =
  (Responded (text_error "file not found" StatusNotFound),
   b, [CallFind "metadata.short_id" x]).
Proof.
  unfold first_match, view_on.
  intros Hx Hnone. apply string_eqb_empty in Hx.
  unfold handleRoot. handler_step.
  change ("/" ++ x =? "/")%string with (x =? EmptyString)%string.
  rewrite Hx, slice_root, Hx. handler_step.
  destruct (find_err (faults env)); [reflexivity|].
  rewrite Hnone. reflexivity.
Qed.

(** What the tags of a well-tagged document look like. *)
Lemma well_tagged_short_id d x :
  well_tagged d -> tagged "short_id" x d -> id_shape 5 x = true.
Proof.
  intros (sid & tok & ct & Hm & Hs & _). unfold tagged. rewrite Hm.
  cbn. intros E. injection E as <-. exact Hs.
Qed.

Lemma well_tagged_delete_token d x :
  well_tagged d -> tagged "delete_token" x d -> id_shape 10 x = true.
Proof.
  intros (sid & tok & ct & Hm & _ & Ht). unfold tagged. rewrite Hm.
  cbn. intros E. injection E as <-. exact Ht.
Qed.

Lemma id_shape_nonempty n x : id_shape (S n) x = true -> x <> EmptyString.
Proof.
  intros H ->. apply id_shape_length in H. discriminate H.
Qed.

(** In a well-formed bucket no value is at once the short id of a
    document and the delete token of a document. *)
Lemma wf_tags_apart b d d' x :
  wf_bucket b -> In d (GridFS.files b) -> In d' (GridFS.files b) ->
  tagged "short_id" x d -> tagged "delete_token" x d' -> False.
Proof.
  intros [_ _ Htag] Hd Hd' Hs Ht. rewrite Forall_forall in Htag.
  pose proof (well_tagged_short_id d x (Htag d Hd) Hs) as H5.
  pose proof (well_tagged_delete_token d' x (Htag d' Hd') Ht) as H10.
  apply id_shape_length in H5. apply id_shape_length in H10. congruence.
Qed.

End Lookups.

(** C4 (token separation).  The viewer and the raw download query the
    bucket on [metadata.short_id] alone, and a value that is no document's
    short id gets 404 from both, whatever the delete tokens are; the delete
    handler queries on [metadata.delete_token] alone, and a value that is no
    document's delete token gets 404 and leaves the bucket as it was,
    whatever the short ids are.  In every bucket the server reaches from the
    empty one, the delete token of a stored file is no file's short id and
    its short id is no file's delete token, so viewing or downloading with
    the token, and deleting with the short id, are answered 404. *)
Theorem token_separation config env m ok ff :
  (forall b x,
      x <> EmptyString ->
      (forall d, In d (GridFS.files b) -> ~ tagged "short_id" x d) ->
      view_on env (HTTP.mkRequest m ("/" ++ x) ok ff) b
      = (HTTP.Responded (HTTP.text_error "file not found" HTTP.StatusNotFound),
         b, [CallFind "metadata.short_id" x]) /\
      serve_on config env (HTTP.mkRequest m ("/raw/" ++ x) ok ff) b
      = (HTTP.Responded (HTTP.text_error "file not found" HTTP.StatusNotFound),
         b, [CallFind "metadata.short_id" x])) /\
  (forall b x,
      x <> EmptyString -> deletes m = true ->
      (forall d, In d (GridFS.files b) -> ~ tagged "delete_token" x d) ->
      serve_on config env (HTTP.mkRequest m ("/delete/" ++ x) ok ff) b
      = (HTTP.Responded (HTTP.json_error "File not found" HTTP.StatusNotFound),
         b, [CallFind "metadata.delete_token" x])) /\
  (forall reqs d sid tok,
      let b := serve_all config reqs GridFS.empty in
      In d (GridFS.files b) ->
      tagged "short_id" sid d -> tagged "delete_token" tok d ->
      (forall d', In d' (GridFS.files b) -> ~ tagged "short_id" tok d') /\
      (forall d', In d' (GridFS.files b) -> ~ tagged "delete_token" sid d') /\
      view_on env (HTTP.mkRequest m ("/" ++ tok) ok ff) b
      = (HTTP.Responded (HTTP.text_error "file not found" HTTP.StatusNotFound),
         b, [CallFind "metadata.short_id" tok]) /\
      serve_on config env (HTTP.mkRequest m ("/raw/" ++ tok) ok ff) b
      = (HTTP.Responded (HTTP.text_error "file not found" HTTP.StatusNotFound),
         b, [CallFind "metadata.short_id" tok]) /\
      (deletes m = true ->
       serve_on config env (HTTP.mkRequest m ("/delete/" ++ sid) ok ff) b
       = (HTTP.Responded
            (HTTP.json_error "File not found" HTTP.StatusNotFound),
          b, [CallFind "metadata.delete_token" sid]))).
Proof.
  assert (HA : forall b x,
      x <> EmptyString ->
      (forall d, In d (GridFS.files b) -> ~ tagged "short_id" x d) ->
      view_on env (HTTP.mkRequest m ("/" ++ x) ok ff) b
      = (HTTP.Responded (HTTP.text_error "file not found" HTTP.StatusNotFound),
         b, [CallFind "metadata.short_id" x]) /\
      serve_on config env (HTTP.mkRequest m ("/raw/" ++ x) ok ff) b
      = (HTTP.Responded (HTTP.text_error "file not found" HTTP.StatusNotFound),
         b, [CallFind "metadata.short_id" x])).
  { intros b x Hx Hno. pose proof (no_short_id x b Hno) as Hnone. split.
    - now apply view_not_found.
    - now apply raw_not_found. }
  assert (HB : forall b x,
      x <> EmptyString -> deletes m = true ->
      (forall d, In d (GridFS.files b) -> ~ tagged "delete_token" x d) ->
      serve_on config env (HTTP.mkRequest m ("/delete/" ++ x) ok ff) b
      = (HTTP.Responded (HTTP.json_error "File not found" HTTP.StatusNotFound),
         b, [CallFind "metadata.delete_token" x])).
  { intros b x Hx Hm Hno. apply delete_not_found; auto.
    now apply no_delete_token. }
  split; [exact HA|]. split; [exact HB|].
  intros reqs d sid tok b Hd Hs Ht.
  pose proof (reachable_wf config reqs) as Hwf. fold b in Hwf.
  assert (Htok : forall d', In d' (GridFS.files b) -> ~ tagged "short_id" tok d').
  { intros d' Hd' H. exact (wf_tags_apart b d' d tok Hwf Hd' Hd H Ht). }
  assert (Hsid : forall d', In d' (GridFS.files b) -> ~ tagged "delete_token" sid d').
  { intros d' Hd' H. exact (wf_tags_apart b d d' sid Hwf Hd Hd' Hs H). }
  assert (Htag : well_tagged d).
  { destruct Hwf as [_ _ Htag]. rewrite Forall_forall in Htag. auto. }
  assert (Hne1 : tok <> EmptyString).
  { eapply id_shape_nonempty, well_tagged_delete_token; eauto. }
  assert (Hne2 : sid <> EmptyString).
  { eapply id_shape_nonempty, well_tagged_short_id; eauto. }
  split; [exact Htok|]. split; [exact Hsid|].
  destruct (HA b tok Hne1 Htok) as [Hv Hr].
  split; [exact Hv|]. split; [exact Hr|].
  intros Hm. now apply HB.
Qed.

Lemma token_separation_witness :
  let config := mkConfig 1000 "http://x" in
  let env := calm (fun _ => [x01; x02; x03; x04]) in
  let b := serve_all config
             [(env, POST_upload (part "a.txt" "text/plain" [x68; x69]))]
             GridFS.empty in
  view_on env (GET "/AQIDBAQIDB") b
  = (HTTP.Responded (HTTP.text_error "file not found" HTTP.StatusNotFound),
     b, [CallFind "metadata.short_id" "AQIDBAQIDB"]) /\
  serve_on config env (GET "/delete/AQIDB") b
  = (HTTP.Responded (HTTP.json_error "File not found" HTTP.StatusNotFound),
     b, [CallFind "metadata.delete_token" "AQIDB"]).
Proof.
  intros config env b.
  destruct (proj2 (proj2 (token_separation config env HTTP.MethodGet false None))
              [(env, POST_upload (part "a.txt" "text/plain" [x68; x69]))]
              (stored_doc env (part "a.txt" "text/plain" [x68; x69]) 0
                 [x68; x69])
              "AQIDB" "AQIDBAQIDB")
    as (_ & _ & Hv & _ & Hd).
  - left. reflexivity.
  - reflexivity.
  - reflexivity.
  - split; [exact Hv | exact (Hd eq_refl)].
Defined.

(** The viewer lookup is the handler registered for ["/"]: a request path
    that is a pattern of its own, such as ["/deployment"], is served by that
    pattern's handler and makes no query at all. *)
Example reserved_path_is_not_viewed config env b :
  serve_on config env (GET "/deployment") b
  = (HTTP.Responded
       (HTTP.mkResponse HTTP.StatusOK []
          (HTTP.Page "templates/deployment.html" None)), b, []).
Proof. reflexivity. Qed.

(* ===================================================================== *)
(** * Round trip of upload and raw download *)
(* ===================================================================== *)

Lemma first_match_app path x b d n :
  first_match path x b = None ->
  GridFS.matches path x d = true ->
  first_match path x (GridFS.mkBucket (GridFS.files b ++ [d])%list n) = Some d.
Proof.
  unfold first_match, GridFS.Find. cbn [GridFS.files]. intros Hnone Hm.
  rewrite filter_app. cbn [filter]. rewrite Hm.
  destruct (filter (GridFS.matches path x) (GridFS.files b));
    [reflexivity | discriminate Hnone].
Qed.

Lemma stored_doc_short_id env file id data :
  tagged "short_id" (id_of (entropy env 0)) (stored_doc env file id data).
Proof. reflexivity. Qed.

Lemma stored_doc_delete_token env file id data :
  tagged "delete_token" (token_of env) (stored_doc env file id data).
Proof. reflexivity. Qed.

(** C1 as the code has it.  In a bucket reached from the empty one, an
    upload answered with 200 whose deferred [Close] went through and whose
    short id is carried by no file already stored answers with the link to
    that short id, and a raw download under that short id, served without a
    store fault, returns 200 with exactly the uploaded bytes, the stored
    content type as [Content-Type] and the uploaded name in the
    disposition; the stored length is the number of uploaded bytes. *)
Theorem round_trip_when_fresh config reqs env file env' m ok ff :
  let b := serve_all config reqs GridFS.empty in
  let up := serve_on config env (POST_upload file) b in
  let sid := id_of (entropy env 0) in
  HTTP.status_of (fst (fst up)) = Some HTTP.StatusOK ->
  close_err (faults env) = false ->
  (forall d, In d (GridFS.files b) -> ~ tagged "short_id" sid d) ->
  faults env' = no_faults ->
  HTTP.body_of (fst (fst up))
    = Some (HTTP.Json [("deletion_link",
                        BaseURL config ++ "/delete/" ++ token_of env);
                       ("link", BaseURL config ++ "/" ++ sid)]) /\
  serve_on config env' (HTTP.mkRequest m ("/raw/" ++ sid) ok ff) (snd (fst up))
  = (HTTP.Responded
       (HTTP.mkResponse HTTP.StatusOK
          [("Content-Type", stored_content_type file);
           ("Content-Disposition",
            "attachment; filename=" ++ GoString.dquote ++
            HTTP.fh_Filename file ++ GoString.dquote)]
          (HTTP.Bytes (HTTP.fh_data file))),
     snd (fst up),
     [CallFind "metadata.short_id" sid;
      CallOpenDownloadStream (GridFS.next_oid b)]) /\
  (exists d,
     first_match "metadata.short_id" sid (snd (fst up)) = Some d /\
     GridFS.Chunks d = HTTP.fh_data file /\
     GridFS.Length d = Z.of_nat (List.length (HTTP.fh_data file))).
Proof.
  intros b up sid H200 Hcl Hfresh Hcalm.
  pose proof (reachable_wf config reqs) as Hwf. fold b in Hwf.
  destruct (upload_ok_inv config env file b H200) as (Hs & Ho & Hc).
  assert (Hwf1 : wf_bucket (snd (fst up))) by now apply serve_on_wf.
  subst up. rewrite (upload_stored config env file b Hs Ho Hc Hcl) in *.
  cbn [fst snd HTTP.body_of HTTP.body] in *.
  set (d := stored_doc env file (GridFS.next_oid b) (HTTP.fh_data file)) in *.
  assert (Hfirst : first_match "metadata.short_id" sid
            (GridFS.mkBucket (GridFS.files b ++ [d])%list
               (S (GridFS.next_oid b))) = Some d).
  { apply first_match_app; [now apply no_short_id|].
    apply matches_short_id. apply stored_doc_short_id. }
  split; [reflexivity|]. split.
  - assert (Hne : sid <> EmptyString).
    { apply (id_shape_nonempty 4). apply id_of_shape. }
    assert (Hin : In d (GridFS.files
              (GridFS.mkBucket (GridFS.files b ++ [d])%list
                 (S (GridFS.next_oid b))))).
    { cbn [GridFS.files]. apply in_or_app. right. apply in_eq. }
    rewrite (raw_found config env' m ok ff sid _ d d Hne Hcalm Hfirst
               (wf_find_id _ d Hwf1 Hin)).
    reflexivity.
  - exists d. split; [exact Hfirst|]. split; reflexivity.
Qed.

Lemma round_trip_when_fresh_witness :
  serve_on (mkConfig 1000 "http://x") (calm (fun _ => []))
    (GET "/raw/AQIDB")
    (snd (fst (serve_on (mkConfig 1000 "http://x")
                 (calm (fun _ => [x01; x02; x03; x04]))
                 (POST_upload (part "a.txt" EmptyString [x68; x69]))
                 GridFS.empty)))
  = (HTTP.Responded
       (HTTP.mkResponse 200
          [("Content-Type", "application/octet-stream");
           ("Content-Disposition",
            "attachment; filename=" ++ GoString.dquote ++ "a.txt"
            ++ GoString.dquote)]
          (HTTP.Bytes [x68; x69])),
     snd (fst (serve_on (mkConfig 1000 "http://x")
                 (calm (fun _ => [x01; x02; x03; x04]))
                 (POST_upload (part "a.txt" EmptyString [x68; x69]))
                 GridFS.empty)),
     [CallFind "metadata.short_id" "AQIDB"; CallOpenDownloadStream 0]).
Proof.
  refine (proj1 (proj2
    (round_trip_when_fresh (mkConfig 1000 "http://x") []
       (calm (fun _ => [x01; x02; x03; x04]))
       (part "a.txt" EmptyString [x68; x69])
       (calm (fun _ => [])) HTTP.MethodGet false None
       eq_refl eq_refl _ eq_refl))).
  intros d Hd. destruct Hd.
Defined.

(** C1 as worded fails: two uploads whose draws from the entropy source
    differ only in the last two bits of the fourth byte are given the same
    short id, both are answered 200, and the download under that id returns
    the bytes of the first upload, not of the second. *)
Lemma round_trip_fails_on_collision : ~ round_trip_claim.
Proof.
  intros H.
  destruct (H (mkConfig 1000 "http://x")
              [(calm (fun _ => [x00; x00; x00; x01]),
                POST_upload (part "first.txt" "text/plain" [x61]))]
              (calm (fun _ => [x00; x00; x00; x02]))
              (part "second.txt" "text/plain" [x62])
              (calm (fun _ => []))
              eq_refl eq_refl) as (hdr & Hbody & _).
  vm_compute in Hbody. discriminate Hbody.
Qed.

(* ===================================================================== *)
(** * Deletion *)
(* ===================================================================== *)

Section Deletion.
Import HTTP Handler.
Variable config : Config.

(** A path made of ["/"] and a five-character identifier reaches the
    handler registered for ["/"]. *)
Lemma route_view env m ok ff x :
  id_shape 5 x = true ->
  serve config env (mkRequest m ("/" ++ x) ok ff)
  = handleRoot env (mkRequest m ("/" ++ x) ok ff).
Proof.
  intros Hx. unfold serve. cbn [Path].
  destruct (GoString.HasPrefix ("/" ++ x) "/static/") eqn:E1.
  { apply GoStringFacts.HasPrefix_inv in E1. destruct E1 as [rest E].
    injection E as ->. cbn in Hx. discriminate Hx. }
  destruct (GoString.HasPrefix ("/" ++ x) "/delete/") eqn:E2.
  { apply GoStringFacts.HasPrefix_inv in E2. destruct E2 as [rest E].
    injection E as ->. cbn in Hx. discriminate Hx. }
  destruct (GoString.HasPrefix ("/" ++ x) "/raw/") eqn:E3.
  { apply GoStringFacts.HasPrefix_inv in E3. destruct E3 as [rest E].
    injection E as ->. unfold id_shape in Hx.
    apply andb_true_iff in Hx. destruct Hx as [_ Hx].
    cbn in Hx. discriminate Hx. }
  destruct ("/" ++ x =? "/integrations")%string eqn:E4.
  { apply String.eqb_eq in E4. injection E4 as ->. discriminate Hx. }
  destruct ("/" ++ x =? "/deployment")%string eqn:E5.
  { apply String.eqb_eq in E5. injection E5 as ->. discriminate Hx. }
  destruct ("/" ++ x =? "/favicon.ico")%string eqn:E6.
  { apply String.eqb_eq in E6. injection E6 as ->. discriminate Hx. }
  destruct ("/" ++ x =? "/upload")%string eqn:E7.
  { apply String.eqb_eq in E7. injection E7 as ->. discriminate Hx. }
  destruct ("/" ++ x =? "/static")%string eqn:E8.
  { apply String.eqb_eq in E8. injection E8 as ->. discriminate Hx. }
  destruct ("/" ++ x =? "/delete")%string eqn:E9.
  { apply String.eqb_eq in E9. injection E9 as ->. discriminate Hx. }
  destruct ("/" ++ x =? "/raw")%string eqn:E10.
  { apply String.eqb_eq in E10. injection E10 as ->. discriminate Hx. }
  reflexivity.
Qed.

Lemma served_view_not_found env m ok ff x b :
  id_shape 5 x = true ->
  first_match "metadata.short_id" x b = None ->
  serve_on config env (mkRequest m ("/" ++ x) ok ff) b =
  (Responded (text_error "file not found" StatusNotFound),
   b, [CallFind "metadata.short_id" x]).
Proof.
  intros Hx Hnone. unfold serve_on. rewrite (route_view env m ok ff x Hx).
  apply (view_not_found env m ok ff x b); [|exact Hnone].
  now apply (id_shape_nonempty 4).
Qed.

(** A revoke answered with 200 found a first match and removed its id. *)
Lemma delete_ok_inv env m ok ff tok b :
  status_of (fst (fst (serve_on config env
                         (mkRequest m ("/delete/" ++ tok) ok ff) b)))
    = Some StatusOK ->
  exists d0,
    first_match "metadata.delete_token" tok b = Some d0 /\
    snd (fst (serve_on config env (mkRequest m ("/delete/" ++ tok) ok ff) b))
    = GridFS.mkBucket
        (filter (fun f => negb (GridFS.has_id (GridFS.ID d0) f))
                (GridFS.files b))
        (GridFS.next_oid b).
Proof.
  unfold serve_on, first_match. rewrite route_delete. unfold handleDelete.
  handler_step.
  destruct (negb (m =? MethodPost)%string && negb (m =? MethodGet)%string);
    [intros H; discriminate H|].
  change (String.length "/delete/") with 8%nat. rewrite slice_delete.
  destruct (tok =? EmptyString)%string; [intros H; discriminate H|].
  handler_step.
  destruct (find_err (faults env)); [intros H; discriminate H|].
  destruct (hd_error (GridFS.Find "metadata.delete_token" tok b))
    as [d0|]; [|intros H; discriminate H].
  destruct (decode_err (faults env)); [intros H; discriminate H|].
  destruct (delete_err (faults env)); [intros H; discriminate H|].
  unfold GridFS.Delete.
  destruct (GridFS.find_id (GridFS.ID d0) b); [|intros H; discriminate H].
  intros _. exists d0. split; reflexivity.
Qed.

(** ** What stays gone *)

Lemma effect_retired env r b b' id :
  retired id b -> effect env r b b' -> retired id b'.
Proof.
  intros [Hno Hlt] He. destruct He as [|id'| |file data Hp Hf].
  - now split.
  - split; [|exact Hlt]. cbn [GridFS.files]. intros d Hd.
    apply filter_In in Hd. now apply Hno.
  - split; [exact Hno | cbn; lia].
  - split; [|cbn; lia]. cbn [GridFS.files]. intros d Hd.
    apply in_app_or in Hd. destruct Hd as [Hd|[<-|[]]]; [now apply Hno|].
    cbn. lia.
Qed.

Lemma serve_all_retired later : forall b id,
  retired id b -> retired id (serve_all config later b).
Proof.
  induction later as [|[env r] later IH]; intros b id H; simpl; [exact H|].
  apply IH. eapply effect_retired; [exact H | apply serve_effect].
Qed.

Lemma effect_gone env r b b' sid tok id :
  gone sid tok id b -> effect env r b b' ->
  reissues env r sid tok = false -> gone sid tok id b'.
Proof.
  intros [Hno Hlt] He Hre. destruct He as [|id'| |file data Hp Hf].
  - now split.
  - split; [|exact Hlt]. cbn [GridFS.files]. intros d Hd.
    apply filter_In in Hd. now apply Hno.
  - split; [exact Hno | cbn; lia].
  - split; [|cbn; lia]. cbn [GridFS.files]. intros d Hd.
    apply in_app_or in Hd. destruct Hd as [Hd|[<-|[]]]; [now apply Hno|].
    unfold reissues in Hre. rewrite Hp in Hre. cbn [andb] in Hre.
    change ("/upload" =? "/upload")%string with true in Hre.
    cbn [andb] in Hre. apply orb_false_iff in Hre.
    destruct Hre as [H1 H2].
    apply String.eqb_neq in H1. apply String.eqb_neq in H2.
    unfold tagged. cbn. repeat split; try congruence. lia.
Qed.

Lemma serve_all_gone later : forall b sid tok id,
  gone sid tok id b ->
  (forall e r, In (e, r) later -> reissues e r sid tok = false) ->
  gone sid tok id (serve_all config later b).
Proof.
  induction later as [|[env r] later IH]; intros b sid tok id H Hre;
    simpl; [exact H|].
  apply IH.
  - eapply effect_gone; [exact H | apply serve_effect|].
    apply Hre. apply in_eq.
  - intros e r' Hin. apply Hre. now apply in_cons.
Qed.

Lemma gone_retired sid tok id b : gone sid tok id b -> retired id b.
Proof.
  intros [Hno Hlt]. split; [|exact Hlt].
  intros d Hd. now apply Hno.
Qed.

End Deletion.

(** C2 as the code has it.  Take a file stored in a bucket reached from the
    empty one whose delete token and short id are carried by no other stored
    file, and a revoke with its token that is answered 200.  From then on
    the file's ObjectID never names a document again, whatever requests
    follow.  And after any requests among which no upload is given that
    short id or that token again, a revoke with the token, a raw download
    and a view under the short id are each answered 404, make the one query
    and leave the bucket as it is. *)
Theorem single_deletion_when_unique config reqs d sid tok env1 m1 ok1 ff1 :
  let b := serve_all config reqs GridFS.empty in
  let del := serve_on config env1
               (HTTP.mkRequest m1 ("/delete/" ++ tok) ok1 ff1) b in
  In d (GridFS.files b) ->
  tagged "short_id" sid d -> tagged "delete_token" tok d ->
  (forall d', In d' (GridFS.files b) ->
     tagged "short_id" sid d' \/ tagged "delete_token" tok d' -> d' = d) ->
  HTTP.status_of (fst (fst del)) = Some HTTP.StatusOK ->
  (forall later,
     ~ In (GridFS.ID d)
          (map GridFS.ID
               (GridFS.files (serve_all config later (snd (fst del)))))) /\
  (forall later env m ok ff,
     (forall e r, In (e, r) later -> reissues e r sid tok = false) ->
     let b2 := serve_all config later (snd (fst del)) in
     (deletes m = true ->
      serve_on config env (HTTP.mkRequest m ("/delete/" ++ tok) ok ff) b2
      = (HTTP.Responded (HTTP.json_error "File not found" HTTP.StatusNotFound),
         b2, [CallFind "metadata.delete_token" tok])) /\
     serve_on config env (HTTP.mkRequest m ("/raw/" ++ sid) ok ff) b2
     = (HTTP.Responded (HTTP.text_error "file not found" HTTP.StatusNotFound),
        b2, [CallFind "metadata.short_id" sid]) /\
     serve_on config env (HTTP.mkRequest m ("/" ++ sid) ok ff) b2
     = (HTTP.Responded (HTTP.text_error "file not found" HTTP.StatusNotFound),
        b2, [CallFind "metadata.short_id" sid])).
Proof.
  intros b del Hd Hs Ht Huniq H200.
  pose proof (reachable_wf config reqs) as Hwf. fold b in Hwf.
  destruct (delete_ok_inv config env1 m1 ok1 ff1 tok b H200)
    as (d0 & Hfirst & Hb1).
  fold del in Hb1.
  destruct (first_match_in _ _ _ _ Hfirst) as [Hin0 Hm0].
  apply matches_delete_token in Hm0.
  assert (E : d0 = d) by (apply Huniq; auto). subst d0.
  assert (Hshape : id_shape 5 sid = true).
  { destruct Hwf as [_ _ Htag]. rewrite Forall_forall in Htag.
    exact (well_tagged_short_id d sid (Htag d Hd) Hs). }
  assert (Htokshape : id_shape 10 tok = true).
  { destruct Hwf as [_ _ Htag]. rewrite Forall_forall in Htag.
    exact (well_tagged_delete_token d tok (Htag d Hd) Ht). }
  assert (Hgone : gone sid tok (GridFS.ID d) (snd (fst del))).
  { rewrite Hb1. split; cbn [GridFS.files GridFS.next_oid].
    - intros d' Hd'. apply filter_In in Hd'. destruct Hd' as [Hin' Hid'].
      unfold GridFS.has_id in Hid'. apply negb_true_iff in Hid'.
      apply Nat.eqb_neq in Hid'.
      repeat split; try exact Hid';
        intros Htag'; apply Hid'; f_equal; apply Huniq; auto.
    - destruct Hwf as [Hlt _ _]. rewrite Forall_forall in Hlt. now apply Hlt. }
  split.
  - intros later Hin. apply in_map_iff in Hin. destruct Hin as (d' & Hid & Hin).
    destruct (serve_all_retired config later _ _
                (gone_retired _ _ _ _ Hgone)) as [Hno _].
    exact (Hno d' Hin Hid).
  - intros later env m ok ff Hre b2.
    destruct (serve_all_gone config later _ _ _ _ Hgone Hre) as [Hno _].
    fold b2 in Hno.
    assert (Hns : first_match "metadata.short_id" sid b2 = None).
    { apply no_short_id. intros d' Hd'. now apply Hno. }
    assert (Hnt : first_match "metadata.delete_token" tok b2 = None).
    { apply no_delete_token. intros d' Hd'. now apply Hno. }
    split; [|split].
    + intros Hm. apply delete_not_found; auto.
      now apply (id_shape_nonempty 9).
    + apply raw_not_found; auto. now apply (id_shape_nonempty 4).
    + now apply served_view_not_found.
Qed.

Lemma single_deletion_when_unique_witness :
  let config := mkConfig 1000 "http://x" in
  let env := calm (fun _ => [x01; x02; x03; x04]) in
  let other := calm (fun _ => [x05; x06; x07; x08]) in
  let file := part "a.txt" "text/plain" [x68; x69] in
  let b1 := snd (fst (serve_on config env (GET "/delete/AQIDBAQIDB")
                        (serve_all config [(env, POST_upload file)]
                           GridFS.empty))) in
  let b2 := serve_all config
              [(other, POST_upload file); (env, GET "/AQIDB")] b1 in
  ~ In 0%nat (map GridFS.ID (GridFS.files b2)) /\
  serve_on config env (GET "/delete/AQIDBAQIDB") b2
  = (HTTP.Responded (HTTP.json_error "File not found" HTTP.StatusNotFound),
     b2, [CallFind "metadata.delete_token" "AQIDBAQIDB"]) /\
  serve_on config env (GET "/raw/AQIDB") b2
  = (HTTP.Responded (HTTP.text_error "file not found" HTTP.StatusNotFound),
     b2, [CallFind "metadata.short_id" "AQIDB"]).
Proof.
  intros config env other file b1 b2.
  assert (Huniq : forall d',
    In d' (GridFS.files (serve_all config [(env, POST_upload file)]
                           GridFS.empty)) ->
    tagged "short_id" "AQIDB" d' \/ tagged "delete_token" "AQIDBAQIDB" d' ->
    d' = stored_doc env file 0 [x68; x69]).
  { intros d' [<-|[]] _. reflexivity. }
  destruct (single_deletion_when_unique config [(env, POST_upload file)]
              (stored_doc env file 0 [x68; x69]) "AQIDB" "AQIDBAQIDB"
              env HTTP.MethodGet false None
              (or_introl eq_refl) eq_refl eq_refl Huniq eq_refl)
    as [Hid Hlater].
  split; [exact (Hid [(other, POST_upload file); (env, GET "/AQIDB")])|].
  destruct (Hlater [(other, POST_upload file); (env, GET "/AQIDB")]
              env HTTP.MethodGet false None) as (Hdel & Hraw & _).
  - intros e r [E|[E|[]]]; injection E as <- <-; reflexivity.
  - split; [exact (Hdel eq_refl) | exact Hraw].
Defined.

(** C2 as worded fails: two uploads given the same identifiers (the same
    draws from the entropy source) leave two files under one delete token;
    the first revoke removes the older one and is answered 200, and the
    second revoke with the same token is answered 200 again, not 404. *)
Lemma second_revoke_succeeds_on_collision : ~ single_deletion_claim.
Proof.
  intros H.
  pose (env := calm (fun _ => [x01; x02; x03; x04])).
  pose (file1 := part "first.txt" "text/plain" [x61]).
  pose (file2 := part "second.txt" "text/plain" [x62]).
  destruct (H (mkConfig 1000 "http://x")
              [(env, POST_upload file1); (env, POST_upload file2)]
              (stored_doc env file1 0 [x61]) "AQIDB" "AQIDBAQIDB"
              env env env
              (or_introl eq_refl) eq_refl eq_refl eq_refl eq_refl eq_refl)
    as [Hsecond _].
  vm_compute in Hsecond. discriminate Hsecond.
Qed.

(* ===================================================================== *)
(** * Further properties of the handlers *)
(* ===================================================================== *)

Section ReadOnly.
Import HTTP Handler.
Variable config : Config.
Variable env : Env.

Lemma handleRoot_keeps r b : snd (fst (run (handleRoot env r) b)) = b.
Proof. unfold handleRoot. all_cases; reflexivity. Qed.

Lemma handleRaw_keeps r b : snd (fst (run (handleRaw env r) b)) = b.
Proof. unfold handleRaw. all_cases; reflexivity. Qed.

(** Only the upload and the delete handler write: a request for any other
    path leaves the bucket exactly as it was, whatever the method, the
    faults of the store and the outcome. *)
Theorem only_upload_and_delete_write r b :
  Path r <> "/upload" ->
  (forall rest, Path r <> "/delete/" ++ rest) ->
  snd (fst (serve_on config env r b)) = b.
Proof.
  intros Hu Hd. unfold serve_on, serve.
  destruct (GoString.HasPrefix (Path r) "/static/"); [reflexivity|].
  destruct (GoString.HasPrefix (Path r) "/delete/") eqn:E.
  { destruct (GoStringFacts.HasPrefix_inv _ _ E) as [rest Hr].
    now destruct (Hd rest). }
  destruct (GoString.HasPrefix (Path r) "/raw/"); [apply handleRaw_keeps|].
  destruct (Path r =? "/integrations")%string; [reflexivity|].
  destruct (Path r =? "/deployment")%string; [reflexivity|].
  destruct (Path r =? "/favicon.ico")%string; [reflexivity|].
  destruct (Path r =? "/upload")%string eqn:E'.
  { apply String.eqb_eq in E'. contradiction. }
  destruct ((Path r =? "/static")%string || (Path r =? "/delete")%string
            || (Path r =? "/raw")%string); [reflexivity|].
  apply handleRoot_keeps.
Qed.

End ReadOnly.

Lemma only_upload_and_delete_write_witness :
  let b := serve_all (mkConfig 1000 "http://x")
             [(calm (fun _ => [x01; x02; x03; x04]),
               POST_upload (part "a.txt" "text/plain" [x68; x69]))]
             GridFS.empty in
  snd (fst (serve_on (mkConfig 1000 "http://x") (calm (fun _ => []))
              (POST "/raw/AQIDB") b)) = b.
Proof.
  intros b. apply only_upload_and_delete_write.
  - discriminate.
  - intros rest. discriminate.
Defined.

Section Gates.
Import HTTP Handler.
Variable config : Config.
Variable env : Env.

(** The method is tested first: an upload that is not a POST, a delete that
    is neither POST nor GET (an empty token included) and a request for the
    index page that is not a GET are answered 405 without a call on the
    store, the first two in the JSON error shape. *)
Theorem wrong_method_is_refused m ok ff b :
  (m <> MethodPost ->
   serve_on config env (mkRequest m "/upload" ok ff) b
   = (Responded (json_error "Method not allowed" StatusMethodNotAllowed),
      b, [])) /\
  (deletes m = false ->
   forall x,
     serve_on config env (mkRequest m ("/delete/" ++ x) ok ff) b
     = (Responded (json_error "Method not allowed" StatusMethodNotAllowed),
        b, [])) /\
  (m <> MethodGet ->
   serve_on config env (mkRequest m "/" ok ff) b
   = (Responded (text_error "method not allowed" StatusMethodNotAllowed),
      b, [])).
Proof.
  split; [|split].
  - intros Hm. apply String.eqb_neq in Hm.
    unfold serve_on. rewrite route_upload. unfold handleUpload.
    handler_step. rewrite Hm. reflexivity.
  - intros Hm x. unfold serve_on. rewrite route_delete. unfold handleDelete.
    handler_step. unfold deletes in Hm. apply orb_false_iff in Hm.
    destruct Hm as [-> ->]. reflexivity.
  - intros Hm. apply String.eqb_neq in Hm.
    unfold serve_on. change (serve config env (mkRequest m "/" ok ff))
      with (handleRoot env (mkRequest m "/" ok ff)).
    unfold handleRoot. handler_step.
    change ("/" =? "/")%string with true. cbn match. rewrite Hm. reflexivity.
Qed.

(** An upload request whose multipart body does not parse, or that has no
    part named "file", is answered 400 in the JSON error shape before any
    identifier is drawn and without a call on the store. *)
Theorem malformed_upload_is_refused ff b :
  serve_on config env (mkRequest MethodPost "/upload" false ff) b
  = (Responded (json_error "Bad request" StatusBadRequest), b, []) /\
  serve_on config env (mkRequest MethodPost "/upload" true None) b
  = (Responded (json_error "File not found" StatusBadRequest), b, []).
Proof. split; reflexivity. Qed.

(** A failing [Find] is not told apart from a missing file: when the query
    itself fails, the viewer, the raw download and the delete handler all
    answer 404, even for an identifier that is stored, and the bucket is
    left as it was. *)
Theorem failed_query_reads_as_not_found m ok ff x b :
  find_err (faults env) = true ->
  x <> EmptyString ->
  view_on env (mkRequest m ("/" ++ x) ok ff) b
  = (Responded (text_error "file not found" StatusNotFound),
     b, [CallFind "metadata.short_id" x]) /\
  serve_on config env (mkRequest m ("/raw/" ++ x) ok ff) b
  = (Responded (text_error "file not found" StatusNotFound),
     b, [CallFind "metadata.short_id" x]) /\
  (deletes m = true ->
   serve_on config env (mkRequest m ("/delete/" ++ x) ok ff) b
   = (Responded (json_error "File not found" StatusNotFound),
      b, [CallFind "metadata.delete_token" x])).
Proof.
  intros Hf Hx. apply string_eqb_empty in Hx. split; [|split].
  - unfold view_on, handleRoot. handler_step.
    change ("/" ++ x =? "/")%string with (x =? EmptyString)%string.
    rewrite Hx, slice_root, Hx. handler_step. rewrite Hf. reflexivity.
  - unfold serve_on. rewrite route_raw. unfold handleRaw. handler_step.
    change (String.length "/raw/") with 5%nat.
    rewrite slice_raw, Hx. handler_step. rewrite Hf. reflexivity.
  - intros Hm. unfold serve_on. rewrite route_delete. unfold handleDelete.
    handler_step. rewrite (delete_method m Hm).
    change (String.length "/delete/") with 8%nat.
    rewrite slice_delete, Hx. handler_step. rewrite Hf. reflexivity.
Qed.

End Gates.

Lemma wrong_method_is_refused_witness :
  serve_on (mkConfig 1000 "http://x") (calm (fun _ => []))
    (GET "/upload") GridFS.empty
  = (HTTP.Responded
       (HTTP.json_error "Method not allowed" HTTP.StatusMethodNotAllowed),
     GridFS.empty, []) /\
  serve_on (mkConfig 1000 "http://x") (calm (fun _ => []))
    (HTTP.mkRequest "DELETE" "/delete/" false None) GridFS.empty
  = (HTTP.Responded
       (HTTP.json_error "Method not allowed" HTTP.StatusMethodNotAllowed),
     GridFS.empty, []) /\
  serve_on (mkConfig 1000 "http://x") (calm (fun _ => []))
    (POST "/") GridFS.empty
  = (HTTP.Responded
       (HTTP.text_error "method not allowed" HTTP.StatusMethodNotAllowed),
     GridFS.empty, []).
Proof.
  split; [|split].
  - apply (proj1 (wrong_method_is_refused (mkConfig 1000 "http://x")
                    (calm (fun _ => [])) HTTP.MethodGet false None
                    GridFS.empty)).
    discriminate.
  - apply (proj1 (proj2 (wrong_method_is_refused (mkConfig 1000 "http://x")
                    (calm (fun _ => [])) "DELETE" false None GridFS.empty))
             eq_refl EmptyString).
  - apply (proj2 (proj2 (wrong_method_is_refused (mkConfig 1000 "http://x")
                    (calm (fun _ => [])) HTTP.MethodPost false None
                    GridFS.empty))).
    discriminate.
Defined.

Lemma failed_query_reads_as_not_found_witness :
  let config := mkConfig 1000 "http://x" in
  let b := serve_all config
             [(calm (fun _ => [x01; x02; x03; x04]),
               POST_upload (part "a.txt" "text/plain" [x68; x69]))]
             GridFS.empty in
  let down := mkEnv (mkFaults true false false false None false false)
                    (fun _ => []) in
  first_match "metadata.short_id" "AQIDB" b
    = Some (stored_doc (calm (fun _ => [x01; x02; x03; x04]))
              (part "a.txt" "text/plain" [x68; x69]) 0 [x68; x69]) /\
  serve_on config down (GET "/raw/AQIDB") b
  = (HTTP.Responded (HTTP.text_error "file not found" HTTP.StatusNotFound),
     b, [CallFind "metadata.short_id" "AQIDB"]).
Proof.
  intros config b down. split; [reflexivity|].
  refine (proj1 (proj2 (failed_query_reads_as_not_found config down
                          HTTP.MethodGet false None "AQIDB" b eq_refl _))).
  discriminate.
Defined.

Section Replies.
Import HTTP Handler.
Variable config : Config.
Variable env : Env.

Lemma json_error_reply message status :
  In status json_error_statuses ->
  json_reply (Responded (json_error message status)).
Proof.
  intros H. exists (json_error message status).
  split; [reflexivity|]. split; [reflexivity|].
  right. now exists message, status.
Qed.

Lemma json_ok_reply body :
  json_reply (Responded (mkResponse StatusOK
                           [("Content-Type", "application/json")] body)).
Proof.
  eexists. split; [reflexivity|]. split; [reflexivity|]. now left.
Qed.

Ltac json_done :=
  first [ apply json_ok_reply
        | apply json_error_reply; unfold json_error_statuses; simpl; tauto ].

(** The JSON endpoints always answer, and always in JSON: whatever the
    request, the draws and the faults of the store, the upload and the
    delete handler reply with [Content-Type: application/json], and a reply
    that is not a 200 is [{"error": message}] with status 400, 404, 405 or
    500. *)
Theorem json_endpoints_reply_in_json m ok ff b :
  json_reply (fst (fst (serve_on config env (mkRequest m "/upload" ok ff) b)))
  /\
  forall x,
    json_reply
      (fst (fst (serve_on config env (mkRequest m ("/delete/" ++ x) ok ff) b))).
Proof.
  split.
  - unfold serve_on. rewrite route_upload. unfold handleUpload.
    rewrite !generateID_id_of. all_cases; json_done.
  - intros x. unfold serve_on. rewrite route_delete. unfold handleDelete.
    handler_step. change (String.length "/delete/") with 8%nat.
    rewrite slice_delete. all_cases; json_done.
Qed.

End Replies.

Lemma formatSize_some bytes :
  GoInt.in_int64 bytes -> exists s, formatSize bytes = Some s.
Proof.
  intros Hr. destruct (Z_lt_le_dec bytes 1024) as [Hlt|Hge].
  - eexists. now apply formatSize_below_unit.
  - destruct (int64_magnitude bytes Hr Hge) as (e & He & Hm).
    eexists. apply (formatSize_magnitude bytes e He Hm).
Qed.

Lemma getFileType_kinds ct :
  getFileType ct = "image" \/ getFileType ct = "video" \/
  getFileType ct = "audio" \/ getFileType ct = "file".
Proof.
  unfold getFileType.
  destruct (GoString.HasPrefix ct "image/"); [tauto|].
  destruct (GoString.HasPrefix ct "video/"); [tauto|].
  destruct (GoString.HasPrefix ct "audio/"); tauto.
Qed.

Section Viewer.
Import HTTP Handler.
Variable config : Config.
Variable env : Env.

(** The page of the viewer.  For an identifier whose first match is [d],
    served without a fault, the handler for ["/"] makes the one query,
    leaves the bucket as it was and answers 200 with the template named
    after the kind of the stored content type, executed with the identifier
    as given, the stored file name and the stored length as [formatSize]
    prints it. *)
Theorem view_shows_first_match m ok ff x b d size :
  x <> EmptyString ->
  find_err (faults env) = false -> decode_err (faults env) = false ->
  first_match "metadata.short_id" x b = Some d ->
  formatSize (GridFS.Length d) = Some size ->
  view_on env (mkRequest m ("/" ++ x) ok ff) b
  = (Responded
       (mkResponse StatusOK []
          (Page (viewer_template (getFileType (meta_field "content_type" d)))
                (Some (mkViewerData x (GridFS.Filename d) size)))),
     b, [CallFind "metadata.short_id" x]).
Proof.
  unfold first_match, view_on.
  intros Hx Hf Hdec Hd Hsize. apply string_eqb_empty in Hx.
  unfold handleRoot. handler_step.
  change ("/" ++ x =? "/")%string with (x =? EmptyString)%string.
  rewrite Hx, slice_root, Hx. handler_step.
  rewrite Hf, Hd, Hdec, Hsize. unfold viewer_template.
  destruct (getFileType_kinds (meta_field "content_type" d))
    as [E|[E|[E|E]]]; rewrite E; reflexivity.
Qed.

(** No request with a path that starts with a slash makes a handler panic,
    as long as the stored lengths are [int64] values and the templates
    parse: the slices of the path are in range on every route, and so are
    the slice of the encoded identifier and the index into the unit
    letters. *)
Theorem served_requests_do_not_panic r b rest :
  Path r = "/" ++ rest ->
  (forall d, In d (GridFS.files b) -> GoInt.in_int64 (GridFS.Length d)) ->
  exists resp, fst (fst (serve_on config env r b)) = Responded resp.
Proof.
  intros Hp Hlen. destruct r as [m p ok ff]. cbn [Path] in Hp. subst p.
  unfold serve_on, serve. cbn [Path].
  destruct (GoString.HasPrefix ("/" ++ rest) "/static/");
    [eexists; reflexivity|].
  destruct (GoString.HasPrefix ("/" ++ rest) "/delete/") eqn:Ed.
  { destruct (GoStringFacts.HasPrefix_inv _ _ Ed) as [x ->].
    unfold handleDelete. handler_step.
    change (String.length "/delete/") with 8%nat. rewrite slice_delete.
    all_cases; eexists; reflexivity. }
  destruct (GoString.HasPrefix ("/" ++ rest) "/raw/") eqn:Er.
  { destruct (GoStringFacts.HasPrefix_inv _ _ Er) as [x ->].
    unfold handleRaw. handler_step.
    change (String.length "/raw/") with 5%nat. rewrite slice_raw.
    all_cases; eexists; reflexivity. }
  destruct ("/" ++ rest =? "/integrations")%string; [eexists; reflexivity|].
  destruct ("/" ++ rest =? "/deployment")%string; [eexists; reflexivity|].
  destruct ("/" ++ rest =? "/favicon.ico")%string; [eexists; reflexivity|].
  destruct ("/" ++ rest =? "/upload")%string.
  { unfold handleUpload. rewrite !generateID_id_of.
    all_cases; eexists; reflexivity. }
  destruct (("/" ++ rest =? "/static")%string
            || ("/" ++ rest =? "/delete")%string
            || ("/" ++ rest =? "/raw")%string); [eexists; reflexivity|].
  unfold handleRoot. handler_step.
  destruct ("/" ++ rest =? "/")%string.
  { destruct (negb (m =? MethodGet)%string); eexists; reflexivity. }
  rewrite slice_root.
  destruct (rest =? EmptyString)%string; [eexists; reflexivity|].
  handler_step.
  destruct (find_err (faults env)); [eexists; reflexivity|].
  destruct (hd_error (GridFS.Find "metadata.short_id" rest b)) as [d|] eqn:E;
    [|eexists; reflexivity].
  destruct (decode_err (faults env)); [eexists; reflexivity|].
  destruct (first_match_in "metadata.short_id" rest b d E) as [Hin _].
  destruct (formatSize_some _ (Hlen d Hin)) as [size ->].
  all_cases; eexists; reflexivity.
Qed.

End Viewer.

Lemma view_shows_first_match_witness :
  let config := mkConfig 1000 "http://x" in
  let e := calm (fun _ => [x00; x00; x00; x01]) in
  let f := part "first.png" "image/png" [x61; x62] in
  let b := serve_all config [(e, POST_upload f)] GridFS.empty in
  view_on e (GET "/AAAAA") b
  = (HTTP.Responded
       (HTTP.mkResponse HTTP.StatusOK []
          (HTTP.Page "templates/viewer_image.html"
             (Some (HTTP.mkViewerData "AAAAA" "first.png" "2 B")))),
     b, [CallFind "metadata.short_id" "AAAAA"]).
Proof.
  intros config e f b.
  apply (view_shows_first_match e HTTP.MethodGet false None "AAAAA" b
           (stored_doc e f 0 [x61; x62]) "2 B").
  - discriminate.
  - reflexivity.
  - reflexivity.
  - reflexivity.
  - reflexivity.
Defined.

Lemma served_requests_do_not_panic_witness :
  let config := mkConfig 1000 "http://x" in
  let e := calm (fun _ => [x00; x00; x00; x01]) in
  let b := serve_all config
             [(e, POST_upload (part "first.png" "image/png" [x61; x62]))]
             GridFS.empty in
  exists resp,
    fst (fst (serve_on config e (GET "/raw/AAAAA") b)) = HTTP.Responded resp.
Proof.
  intros config e b.
  apply (served_requests_do_not_panic config e (GET "/raw/AAAAA") b
           "raw/AAAAA").
  - reflexivity.
  - intros d [<-|[]]. vm_compute. split; discriminate.
Defined.


(* ===================================================================== *)
(** * How requests compose *)
(* ===================================================================== *)

Lemma effect_sized env r b b' : sized b -> effect env r b b' -> sized b'.
Proof.
  intros Hs He. destruct He as [|id| |file data Hp Hf]; unfold sized in *;
    cbn [GridFS.files]; intros d Hd.
  - now apply Hs.
  - apply filter_In in Hd. now apply Hs.
  - now apply Hs.
  - apply in_app_or in Hd. destruct Hd as [Hd|[<-|[]]]; [now apply Hs|].
    reflexivity.
Qed.

Lemma reachable_sized config reqs :
  sized (serve_all config reqs GridFS.empty).
Proof.
  assert (H : forall b, sized b -> sized (serve_all config reqs b)).
  { induction reqs as [|[env r] reqs IH]; intros b Hb; simpl; [exact Hb|].
    apply IH. eapply effect_sized; [exact Hb | apply serve_effect]. }
  apply H. intros d [].
Qed.

(** The first match of a query survives the removal of other documents. *)
Lemma first_match_filter path x (keep : GridFS.FileDoc -> bool) b d :
  first_match path x b = Some d -> keep d = true ->
  first_match path x
    (GridFS.mkBucket (filter keep (GridFS.files b)) (GridFS.next_oid b))
  = Some d.
Proof.
  unfold first_match, GridFS.Find. cbn [GridFS.files].
  induction (GridFS.files b) as [|a l IH]; cbn [filter]; intros H Hk;
    [discriminate H|].
  destruct (GridFS.matches path x a) eqn:Ea.
  - cbn [hd_error] in H. injection H as ->. rewrite Hk. cbn [filter].
    now rewrite Ea.
  - destruct (keep a); [|now apply IH].
    cbn [filter]. rewrite Ea. now apply IH.
Qed.

Lemma first_match_app_old path x b d new n :
  first_match path x b = Some d ->
  first_match path x (GridFS.mkBucket (GridFS.files b ++ [new])%list n)
  = Some d.
Proof.
  unfold first_match, GridFS.Find. cbn [GridFS.files]. rewrite filter_app.
  destruct (filter (GridFS.matches path x) (GridFS.files b));
    [discriminate | intros H; exact H].
Qed.

(** The outcome of a raw download is decided by the first match and by the
    document its ObjectID names. *)
Lemma raw_outcome_transfers config env m ok ff x b b' :
  first_match "metadata.short_id" x b' = first_match "metadata.short_id" x b ->
  (forall d, first_match "metadata.short_id" x b = Some d ->
     GridFS.find_id (GridFS.ID d) b' = GridFS.find_id (GridFS.ID d) b) ->
  fst (fst (serve_on config env (HTTP.mkRequest m ("/raw/" ++ x) ok ff) b'))
  = fst (fst (serve_on config env (HTTP.mkRequest m ("/raw/" ++ x) ok ff) b)).
Proof.
  unfold first_match. intros Hfirst Hid.
  unfold serve_on. rewrite !route_raw. unfold handleRaw. handler_step.
  change (String.length "/raw/") with 5%nat. rewrite slice_raw.
  destruct (x =? EmptyString)%string; [reflexivity|].
  handler_step. destruct (find_err (faults env)); [reflexivity|].
  rewrite Hfirst.
  destruct (hd_error (GridFS.Find "metadata.short_id" x b)) as [d|] eqn:E;
    [|reflexivity].
  destruct (decode_err (faults env)); [reflexivity|].
  handler_step. destruct (open_download_err (faults env)); [reflexivity|].
  rewrite (Hid d eq_refl).
  destruct (option_map GridFS.Chunks (GridFS.find_id (GridFS.ID d) b));
    reflexivity.
Qed.

Lemma find_id_filter id (keep : GridFS.FileDoc -> bool) b :
  (forall d, In d (GridFS.files b) -> GridFS.ID d = id -> keep d = true) ->
  GridFS.find_id id
    (GridFS.mkBucket (filter keep (GridFS.files b)) (GridFS.next_oid b))
  = GridFS.find_id id b.
Proof.
  unfold GridFS.find_id. cbn [GridFS.files].
  induction (GridFS.files b) as [|a l IH]; intros H; [reflexivity|].
  cbn [filter find]. destruct (GridFS.has_id id a) eqn:Ea.
  - rewrite (H a (in_eq a l)); [cbn [find]; now rewrite Ea|].
    unfold GridFS.has_id in Ea. now apply Nat.eqb_eq in Ea.
  - destruct (keep a).
    + cbn [find]. rewrite Ea. apply IH. intros d Hd. apply H. now right.
    + apply IH. intros d Hd. apply H. now right.
Qed.

Lemma find_id_app_old id b new n d :
  GridFS.find_id id b = Some d ->
  GridFS.find_id id (GridFS.mkBucket (GridFS.files b ++ [new])%list n) = Some d.
Proof.
  unfold GridFS.find_id. cbn [GridFS.files].
  induction (GridFS.files b) as [|a l IH]; cbn [find app]; [discriminate|].
  destruct (GridFS.has_id id a); [intros H; exact H | exact IH].
Qed.

(** A revoke removes one file and no other.  After a revoke answered with
    200, which removed the first match [d0] of the token, every identifier
    that resolved to another document resolves to it as before, and a raw
    download under it gets the same answer as before the revoke, whatever
    the faults of the store during the download. *)
Theorem revoke_leaves_other_files config b env1 m1 ok1 ff1 tok d0 :
  let b' := snd (fst (serve_on config env1
                        (HTTP.mkRequest m1 ("/delete/" ++ tok) ok1 ff1) b)) in
  HTTP.status_of
    (fst (fst (serve_on config env1
                 (HTTP.mkRequest m1 ("/delete/" ++ tok) ok1 ff1) b)))
    = Some HTTP.StatusOK ->
  first_match "metadata.delete_token" tok b = Some d0 ->
  (forall d, In d (GridFS.files b') <->
             In d (GridFS.files b) /\ GridFS.ID d <> GridFS.ID d0) /\
  forall x d env m ok ff,
    first_match "metadata.short_id" x b = Some d ->
    GridFS.ID d <> GridFS.ID d0 ->
    first_match "metadata.short_id" x b' = Some d /\
    fst (fst (serve_on config env (HTTP.mkRequest m ("/raw/" ++ x) ok ff) b'))
    = fst (fst (serve_on config env (HTTP.mkRequest m ("/raw/" ++ x) ok ff) b)).
Proof.
  intros b' H200 Hd0.
  destruct (delete_ok_inv config env1 m1 ok1 ff1 tok b H200)
    as (d0' & Hfirst & Hb').
  fold b' in Hb'. rewrite Hd0 in Hfirst. injection Hfirst as <-.
  assert (Hkeep : forall d, GridFS.ID d <> GridFS.ID d0 ->
            negb (GridFS.has_id (GridFS.ID d0) d) = true).
  { intros d Hne. unfold GridFS.has_id. apply negb_true_iff.
    now apply Nat.eqb_neq. }
  split.
  - intros d. rewrite Hb'. cbn [GridFS.files]. rewrite filter_In.
    unfold GridFS.has_id. rewrite negb_true_iff, Nat.eqb_neq. tauto.
  - intros x d env m ok ff Hx Hne.
    assert (Hfm : first_match "metadata.short_id" x b' = Some d).
    { rewrite Hb'. apply first_match_filter; auto. }
    split; [exact Hfm|].
    apply raw_outcome_transfers.
    + now rewrite Hfm, Hx.
    + intros d' Hd'. rewrite Hx in Hd'. injection Hd' as <-.
      rewrite Hb'. apply find_id_filter.
      intros y _ Hy. apply Hkeep. congruence.
Qed.

Lemma revoke_leaves_other_files_witness :
  let config := mkConfig 1000 "http://x" in
  let e1 := calm (fun _ => [x01; x02; x03; x04]) in
  let e2 := calm (fun _ => [x05; x06; x07; x08]) in
  let b := serve_all config
             [(e1, POST_upload (part "a.txt" "text/plain" [x61]));
              (e2, POST_upload (part "b.txt" "text/plain" [x62]))]
             GridFS.empty in
  let b' := snd (fst (serve_on config e1 (GET "/delete/AQIDBAQIDB") b)) in
  fst (fst (serve_on config e1 (GET "/raw/BQYHC") b'))
  = fst (fst (serve_on config e1 (GET "/raw/BQYHC") b)) /\
  HTTP.body_of (fst (fst (serve_on config e1 (GET "/raw/BQYHC") b')))
  = Some (HTTP.Bytes [x62]).
Proof.
  intros config e1 e2 b b'. split; [|reflexivity].
  refine (proj2 (proj2 (revoke_leaves_other_files config b e1 HTTP.MethodGet
             false None "AQIDBAQIDB"
             (stored_doc e1 (part "a.txt" "text/plain" [x61]) 0 [x61])
             eq_refl eq_refl)
           "BQYHC" (stored_doc e2 (part "b.txt" "text/plain" [x62]) 1 [x62])
           e1 HTTP.MethodGet false None eq_refl _)).
  discriminate.
Defined.

Section Uploads.
Import HTTP Handler.
Variable config : Config.

(** The ways an upload of a part can leave the bucket and the call log. *)
Lemma upload_outcomes env file b :
  let up := serve_on config env (POST_upload file) b in
  (snd (fst up) = b /\ snd up = []) \/
  (snd (fst up) = b /\ snd up = [CallOpenUploadStream (fh_Filename file)]) \/
  (exists data,
     snd (fst up)
     = GridFS.mkBucket
         (GridFS.files b ++ [stored_doc env file (GridFS.next_oid b) data])%list
         (S (GridFS.next_oid b)) /\
     snd up = [CallOpenUploadStream (fh_Filename file);
               CallWrite (List.length data); CallClose]) \/
  (snd (fst up) = GridFS.mkBucket (GridFS.files b) (S (GridFS.next_oid b)) /\
   exists n,
     snd up = [CallOpenUploadStream (fh_Filename file); CallWrite n;
               CallClose]).
Proof.
  intros up. subst up.
  destruct (Z_lt_le_dec (MaxSize config) (fh_Size file)) as [Hs|Hs].
  { rewrite (upload_too_large config env file b Hs). left. now split. }
  destruct (open_upload_err (faults env)) eqn:Ho.
  { rewrite (upload_open_fails config env file b Hs Ho).
    right. left. now split. }
  destruct (copy_err (faults env)) as [[n|]|] eqn:Hc;
    [destruct (close_err (faults env)) eqn:Hcl| |
     destruct (close_err (faults env)) eqn:Hcl].
  - rewrite (upload_source_fault_unfinished config env file b n Hs Ho Hc Hcl).
    right. right. right. split; [reflexivity | eexists; reflexivity].
  - rewrite (upload_source_fault config env file b n Hs Ho Hc Hcl).
    right. right. left. exists (firstn n (fh_data file)). now split.
  - rewrite (upload_store_fault config env file b Hs Ho Hc).
    right. right. right. split; [reflexivity | eexists; reflexivity].
  - rewrite (upload_unfinished config env file b Hs Ho Hc Hcl).
    right. right. right. split; [reflexivity | eexists; reflexivity].
  - rewrite (upload_stored config env file b Hs Ho Hc Hcl).
    right. right. left. exists (fh_data file). now split.
Qed.

(** An upload never disturbs what is stored.  Whatever its outcome and
    whatever identifiers it is given, every query that had a first match
    before the upload has the same first match after it, the documents
    stored before are all still there, and a raw download under an
    identifier that resolved before gets the same answer as before. *)
Theorem upload_keeps_existing_links env file b :
  let b' := snd (fst (serve_on config env (POST_upload file) b)) in
  (forall d, In d (GridFS.files b) -> In d (GridFS.files b')) /\
  (forall path x d,
     first_match path x b = Some d -> first_match path x b' = Some d) /\
  (forall x d env' m ok ff,
     first_match "metadata.short_id" x b = Some d ->
     fst (fst (serve_on config env' (mkRequest m ("/raw/" ++ x) ok ff) b'))
     = fst (fst (serve_on config env' (mkRequest m ("/raw/" ++ x) ok ff) b))).
Proof.
  intros b'.
  assert (Hcases :
    b' = b \/
    (exists new, b' = GridFS.mkBucket (GridFS.files b ++ [new])%list
                        (S (GridFS.next_oid b))) \/
    b' = GridFS.mkBucket (GridFS.files b) (S (GridFS.next_oid b))).
  { subst b'. destruct (upload_outcomes env file b)
      as [[H _]|[[H _]|[(data & H & _)|[H _]]]]; rewrite H; eauto. }
  assert (Hfirst : forall path x d,
     first_match path x b = Some d -> first_match path x b' = Some d).
  { intros path x d Hd.
    destruct Hcases as [->|[[new ->]| ->]]; [exact Hd| |exact Hd].
    now apply first_match_app_old. }
  assert (Hfind : forall id d,
     GridFS.find_id id b = Some d -> GridFS.find_id id b' = Some d).
  { intros id d Hd.
    destruct Hcases as [->|[[new ->]| ->]]; [exact Hd| |exact Hd].
    now apply find_id_app_old. }
  split; [|split; [exact Hfirst|]].
  - intros d Hd. destruct Hcases as [->|[[new ->]| ->]]; [exact Hd| |exact Hd].
    cbn [GridFS.files]. apply in_or_app. now left.
  - intros x d env' m ok ff Hd. apply raw_outcome_transfers.
    + now rewrite (Hfirst _ _ _ Hd), Hd.
    + intros d' Hd'. rewrite Hd in Hd'. injection Hd' as <-.
      destruct (first_match_in _ _ _ _ Hd) as [Hin _].
      destruct (find_id_in b d Hin) as [d1 H1].
      now rewrite H1, (Hfind _ _ H1).
Qed.

(** An upload stream that was opened is closed on every way out: the calls
    an upload makes on the store are none at all (the request was refused),
    the failed [OpenUploadStream] alone, or opening, one copy and the
    deferred [Close], in this order, also when the copy fails. *)
Theorem opened_stream_is_closed env file b :
  let calls := snd (serve_on config env (POST_upload file) b) in
  calls = [] \/
  (calls = [CallOpenUploadStream (fh_Filename file)] /\
   open_upload_err (faults env) = true) \/
  (exists n,
     calls = [CallOpenUploadStream (fh_Filename file); CallWrite n; CallClose]
     /\ open_upload_err (faults env) = false).
Proof.
  intros calls. subst calls.
  destruct (Z_lt_le_dec (MaxSize config) (fh_Size file)) as [Hs|Hs].
  { rewrite (upload_too_large config env file b Hs). now left. }
  destruct (open_upload_err (faults env)) eqn:Ho.
  { rewrite (upload_open_fails config env file b Hs Ho). right. left.
    now split. }
  right. right.
  destruct (copy_err (faults env)) as [[n|]|] eqn:Hc;
    [destruct (close_err (faults env)) eqn:Hcl| |
     destruct (close_err (faults env)) eqn:Hcl].
  - rewrite (upload_source_fault_unfinished config env file b n Hs Ho Hc Hcl).
    eexists. split; reflexivity.
  - rewrite (upload_source_fault config env file b n Hs Ho Hc Hcl).
    eexists. split; reflexivity.
  - rewrite (upload_store_fault config env file b Hs Ho Hc).
    eexists. split; reflexivity.
  - rewrite (upload_unfinished config env file b Hs Ho Hc Hcl).
    eexists. split; reflexivity.
  - rewrite (upload_stored config env file b Hs Ho Hc Hcl).
    eexists. split; reflexivity.
Qed.


End Uploads.

Lemma upload_keeps_existing_links_witness :
  let config := mkConfig 1000 "http://x" in
  let e1 := calm (fun _ => [x00; x00; x00; x01]) in
  let e2 := calm (fun _ => [x00; x00; x00; x02]) in
  let b := serve_all config
             [(e1, POST_upload (part "first.txt" "text/plain" [x61]))]
             GridFS.empty in
  let b' := snd (fst (serve_on config e2
                        (POST_upload (part "second.txt" "text/plain" [x62]))
                        b)) in
  id_of (entropy e1 0) = id_of (entropy e2 0) /\
  first_match "metadata.short_id" "AAAAA" b'
  = Some (stored_doc e1 (part "first.txt" "text/plain" [x61]) 0 [x61]).
Proof.
  intros config e1 e2 b b'. split; [reflexivity|].
  apply (proj1 (proj2 (upload_keeps_existing_links config e2
                         (part "second.txt" "text/plain" [x62]) b))).
  reflexivity.
Defined.

Lemma filter_drops_new (l : list GridFS.FileDoc) (new : GridFS.FileDoc) :
  Forall (fun d => (GridFS.ID d < GridFS.ID new)%nat) l ->
  filter (fun f => negb (GridFS.has_id (GridFS.ID new) f)) (l ++ [new])%list
  = l.
Proof.
  intros H. rewrite filter_app. cbn [filter]. unfold GridFS.has_id at 2.
  rewrite Nat.eqb_refl. cbn [negb]. rewrite app_nil_r.
  induction H as [|a l Ha Hl IH]; [reflexivity|].
  cbn [filter]. unfold GridFS.has_id at 1.
  destruct (Nat.eqb_spec (GridFS.ID a) (GridFS.ID new)) as [E|E]; [lia|].
  cbn [negb]. now rewrite IH.
Qed.

(** Upload and revoke undo each other.  In a bucket reached from the empty
    one, an upload answered with 200 whose deferred [Close] went through
    and whose delete token is carried by no file already stored, followed
    by a revoke with that token served without a fault, is answered 200 and
    leaves exactly the documents that were stored before the upload; only
    the ObjectID is used up. *)
Theorem upload_then_revoke_restores config reqs env file env' m ok ff :
  let b := serve_all config reqs GridFS.empty in
  let up := serve_on config env (POST_upload file) b in
  HTTP.status_of (fst (fst up)) = Some HTTP.StatusOK ->
  close_err (faults env) = false ->
  (forall d, In d (GridFS.files b) -> ~ tagged "delete_token" (token_of env) d) ->
  deletes m = true -> faults env' = no_faults ->
  serve_on config env'
    (HTTP.mkRequest m ("/delete/" ++ token_of env) ok ff) (snd (fst up))
  = (HTTP.Responded
       (HTTP.mkResponse HTTP.StatusOK [("Content-Type", "application/json")]
          (HTTP.Json [("status", "deleted")])),
     GridFS.mkBucket (GridFS.files b) (S (GridFS.next_oid b)),
     [CallFind "metadata.delete_token" (token_of env);
      CallDelete (GridFS.next_oid b)]).
Proof.
  intros b up H200 Hcl Hfresh Hm Hcalm.
  pose proof (reachable_wf config reqs) as Hwf. fold b in Hwf.
  destruct (upload_ok_inv config env file b H200) as (Hs & Ho & Hc).
  subst up. rewrite (upload_stored config env file b Hs Ho Hc Hcl).
  cbn [fst snd].
  set (new := stored_doc env file (GridFS.next_oid b) (HTTP.fh_data file)).
  assert (Hfirst : first_match "metadata.delete_token" (token_of env)
            (GridFS.mkBucket (GridFS.files b ++ [new])%list
               (S (GridFS.next_oid b))) = Some new).
  { apply first_match_app; [now apply no_delete_token|].
    apply matches_delete_token. apply stored_doc_delete_token. }
  assert (Hne : token_of env <> EmptyString).
  { apply (id_shape_nonempty 9). unfold token_of.
    apply (id_shape_app 5 5); apply id_of_shape. }
  rewrite (delete_found config env' m ok ff (token_of env) _ new
             Hm Hne Hcalm Hfirst).
  cbn [GridFS.files GridFS.next_oid].
  rewrite filter_drops_new; [reflexivity|].
  destruct Hwf as [Hlt _ _]. exact Hlt.
Qed.

Lemma upload_then_revoke_restores_witness :
  let config := mkConfig 1000 "http://x" in
  let env := calm (fun _ => [x01; x02; x03; x04]) in
  serve_on config env (GET "/delete/AQIDBAQIDB")
    (snd (fst (serve_on config env
                 (POST_upload (part "a.txt" "text/plain" [x68; x69]))
                 GridFS.empty)))
  = (HTTP.Responded
       (HTTP.mkResponse HTTP.StatusOK [("Content-Type", "application/json")]
          (HTTP.Json [("status", "deleted")])),
     GridFS.mkBucket [] 1,
     [CallFind "metadata.delete_token" "AQIDBAQIDB"; CallDelete 0]).
Proof.
  intros config env.
  refine (upload_then_revoke_restores config [] env
            (part "a.txt" "text/plain" [x68; x69]) env HTTP.MethodGet
            false None eq_refl eq_refl _ eq_refl eq_refl).
  intros d [].
Defined.

(** A copy that fails while reading the uploaded part still leaves a file.
    The deferred [Close], when it goes through, finalises what was written:
    the client is answered 500 "Write error" and is given no link, yet the
    bytes copied before the fault are stored under the short id that was
    drawn, and a raw download under that id returns them. *)
Theorem failed_copy_leaves_partial_file config reqs env file n env' m ok ff :
  let b := serve_all config reqs GridFS.empty in
  let up := serve_on config env (POST_upload file) b in
  let sid := id_of (entropy env 0) in
  HTTP.fh_Size file <= MaxSize config ->
  open_upload_err (faults env) = false ->
  copy_err (faults env) = Some (SourceFault n) ->
  close_err (faults env) = false ->
  (forall d, In d (GridFS.files b) -> ~ tagged "short_id" sid d) ->
  faults env' = no_faults ->
  fst (fst up)
  = HTTP.Responded
      (HTTP.json_error "Write error" HTTP.StatusInternalServerError) /\
  fst (fst (serve_on config env' (HTTP.mkRequest m ("/raw/" ++ sid) ok ff)
              (snd (fst up))))
  = HTTP.Responded
      (HTTP.mkResponse HTTP.StatusOK
         [("Content-Type", stored_content_type file);
          ("Content-Disposition",
           "attachment; filename=" ++ GoString.dquote ++
           HTTP.fh_Filename file ++ GoString.dquote)]
         (HTTP.Bytes (firstn n (HTTP.fh_data file)))).
Proof.
  intros b up sid Hs Ho Hc Hcl Hfresh Hcalm.
  pose proof (reachable_wf config reqs) as Hwf. fold b in Hwf.
  assert (Hwf1 : wf_bucket (snd (fst up))) by now apply serve_on_wf.
  subst up.
  rewrite (upload_source_fault config env file b n Hs Ho Hc Hcl) in *.
  cbn [fst snd] in *. split; [reflexivity|].
  set (d := stored_doc env file (GridFS.next_oid b)
              (firstn n (HTTP.fh_data file))) in *.
  assert (Hfirst : first_match "metadata.short_id" sid
            (GridFS.mkBucket (GridFS.files b ++ [d])%list
               (S (GridFS.next_oid b))) = Some d).
  { apply first_match_app; [now apply no_short_id|].
    apply matches_short_id. apply stored_doc_short_id. }
  assert (Hne : sid <> EmptyString).
  { apply (id_shape_nonempty 4). apply id_of_shape. }
  assert (Hin : In d (GridFS.files
            (GridFS.mkBucket (GridFS.files b ++ [d])%list
               (S (GridFS.next_oid b))))).
  { cbn [GridFS.files]. apply in_or_app. right. apply in_eq. }
  rewrite (raw_found config env' m ok ff sid _ d d Hne Hcalm Hfirst
             (wf_find_id _ d Hwf1 Hin)).
  reflexivity.
Qed.

Lemma failed_copy_leaves_partial_file_witness :
  let config := mkConfig 1000 "http://x" in
  let env := mkEnv (mkFaults false false false false (Some (SourceFault 1))
                      false false)
                   (fun _ => [x01; x02; x03; x04]) in
  let up := serve_on config env
              (POST_upload (part "a.txt" "text/plain" [x68; x69]))
              GridFS.empty in
  HTTP.status_of (fst (fst up)) = Some 500 /\
  HTTP.body_of (fst (fst (serve_on config (calm (fun _ => []))
                            (GET "/raw/AQIDB") (snd (fst up)))))
  = Some (HTTP.Bytes [x68]).
Proof.
  intros config env up.
  destruct (failed_copy_leaves_partial_file config [] env
              (part "a.txt" "text/plain" [x68; x69]) 1
              (calm (fun _ => [])) HTTP.MethodGet false None)
    as [H1 H2].
  - simpl. lia.
  - reflexivity.
  - reflexivity.
  - reflexivity.
  - intros d [].
  - reflexivity.
  - split.
    + exact (f_equal HTTP.status_of H1).
    + exact (f_equal HTTP.body_of H2).
Defined.

(** An acknowledged upload can be lost.  The error of the deferred [Close]
    is dropped and the reply does not wait for it: when the part is within
    the limit, the stream opens and the copy goes through but [Close]
    fails, the client is answered 200 with both links, no document is
    created, and with an identifier and a token that no stored file
    carries, the download under the link and the revoke under the deletion
    link are both answered 404, in whatever environment they are served. *)
Theorem unclosed_upload_is_acknowledged config env file b env' m ok ff :
  let up := serve_on config env (POST_upload file) b in
  let sid := id_of (entropy env 0) in
  HTTP.fh_Size file <= MaxSize config ->
  open_upload_err (faults env) = false ->
  copy_err (faults env) = None ->
  close_err (faults env) = true ->
  (forall d, In d (GridFS.files b) ->
     ~ tagged "short_id" sid d /\ ~ tagged "delete_token" (token_of env) d) ->
  fst (fst up)
  = HTTP.Responded
      (HTTP.mkResponse HTTP.StatusOK [("Content-Type", "application/json")]
         (HTTP.Json [("deletion_link",
                      BaseURL config ++ "/delete/" ++ token_of env);
                     ("link", BaseURL config ++ "/" ++ sid)])) /\
  GridFS.files (snd (fst up)) = GridFS.files b /\
  fst (fst (serve_on config env' (HTTP.mkRequest m ("/raw/" ++ sid) ok ff)
              (snd (fst up))))
  = HTTP.Responded (HTTP.text_error "file not found" HTTP.StatusNotFound) /\
  (deletes m = true ->
   fst (fst (serve_on config env'
               (HTTP.mkRequest m ("/delete/" ++ token_of env) ok ff)
               (snd (fst up))))
   = HTTP.Responded (HTTP.json_error "File not found" HTTP.StatusNotFound)).
Proof.
  intros up sid Hs Ho Hc Hcl Hfresh.
  subst up. rewrite (upload_unfinished config env file b Hs Ho Hc Hcl).
  cbn [fst snd GridFS.files].
  split; [reflexivity|]. split; [reflexivity|].
  assert (Hsid : sid <> EmptyString).
  { apply (id_shape_nonempty 4). apply id_of_shape. }
  assert (Htok : token_of env <> EmptyString).
  { apply (id_shape_nonempty 9). unfold token_of.
    apply (id_shape_app 5 5); apply id_of_shape. }
  split.
  - rewrite raw_not_found; [reflexivity | exact Hsid |].
    apply no_short_id. cbn [GridFS.files]. intros d Hd.
    exact (proj1 (Hfresh d Hd)).
  - intros Hm. rewrite delete_not_found; [reflexivity | exact Hm | exact Htok |].
    apply no_delete_token. cbn [GridFS.files]. intros d Hd.
    exact (proj2 (Hfresh d Hd)).
Qed.

Lemma unclosed_upload_is_acknowledged_witness :
  let config := mkConfig 1000 "http://x" in
  let env := mkEnv (mkFaults false false false false None true false)
                   (fun _ => [x01; x02; x03; x04]) in
  let up := serve_on config env
              (POST_upload (part "a.txt" "text/plain" [x68; x69]))
              GridFS.empty in
  fst (fst up)
  = HTTP.Responded
      (HTTP.mkResponse 200 [("Content-Type", "application/json")]
         (HTTP.Json [("deletion_link", "http://x/delete/AQIDBAQIDB");
                     ("link", "http://x/AQIDB")])) /\
  GridFS.files (snd (fst up)) = [] /\
  HTTP.status_of (fst (fst (serve_on config (calm (fun _ => []))
                              (GET "/raw/AQIDB") (snd (fst up)))))
  = Some 404.
Proof.
  intros config env up.
  destruct (unclosed_upload_is_acknowledged config env
              (part "a.txt" "text/plain" [x68; x69]) GridFS.empty
              (calm (fun _ => [])) HTTP.MethodGet false None)
    as (H1 & H2 & H3 & _).
  - simpl. lia.
  - reflexivity.
  - reflexivity.
  - reflexivity.
  - intros d [].
  - split; [exact H1|]. split; [exact H2|].
    exact (f_equal HTTP.status_of H3).
Defined.

(** The viewer and the raw download show the same file.  In a bucket
    reached from the empty one, for an identifier with first match [d] and
    requests served without a fault, the raw download returns the bytes of
    [d] under the stored name and content type, and the viewer shows the
    same name, the size of exactly those bytes, and the template of the
    kind of that content type. *)
Theorem viewer_and_download_agree config reqs env m ok ff x d size :
  let b := serve_all config reqs GridFS.empty in
  x <> EmptyString -> faults env = no_faults ->
  first_match "metadata.short_id" x b = Some d ->
  formatSize (Z.of_nat (List.length (GridFS.Chunks d))) = Some size ->
  serve_on config env (HTTP.mkRequest m ("/raw/" ++ x) ok ff) b
  = (HTTP.Responded
       (HTTP.mkResponse HTTP.StatusOK
          [("Content-Type", meta_field "content_type" d);
           ("Content-Disposition",
            "attachment; filename=" ++ GoString.dquote ++
            GridFS.Filename d ++ GoString.dquote)]
          (HTTP.Bytes (GridFS.Chunks d))),
     b, [CallFind "metadata.short_id" x;
         CallOpenDownloadStream (GridFS.ID d)]) /\
  view_on env (HTTP.mkRequest m ("/" ++ x) ok ff) b
  = (HTTP.Responded
       (HTTP.mkResponse HTTP.StatusOK []
          (HTTP.Page
             (viewer_template (getFileType (meta_field "content_type" d)))
             (Some (HTTP.mkViewerData x (GridFS.Filename d) size)))),
     b, [CallFind "metadata.short_id" x]).
Proof.
  intros b Hx Hcalm Hd Hsize.
  pose proof (reachable_wf config reqs) as Hwf. fold b in Hwf.
  pose proof (reachable_sized config reqs) as Hsz. fold b in Hsz.
  destruct (first_match_in _ _ _ _ Hd) as [Hin _].
  split.
  - apply raw_found; auto. now apply wf_find_id.
  - apply view_shows_first_match; auto.
    + now rewrite Hcalm.
    + now rewrite Hcalm.
    + now rewrite (Hsz d Hin).
Qed.

Lemma viewer_and_download_agree_witness :
  let config := mkConfig 1000 "http://x" in
  let env := calm (fun _ => [x01; x02; x03; x04]) in
  let b := serve_all config
             [(env, POST_upload (part "a.png" "image/png" [x68; x69]))]
             GridFS.empty in
  view_on env (GET "/AQIDB") b
  = (HTTP.Responded
       (HTTP.mkResponse HTTP.StatusOK []
          (HTTP.Page "templates/viewer_image.html"
             (Some (HTTP.mkViewerData "AQIDB" "a.png" "2 B")))),
     b, [CallFind "metadata.short_id" "AQIDB"]).
Proof.
  intros config env b.
  refine (proj2 (viewer_and_download_agree config
            [(env, POST_upload (part "a.png" "image/png" [x68; x69]))]
            env HTTP.MethodGet false None "AQIDB"
            (stored_doc env (part "a.png" "image/png" [x68; x69]) 0
               [x68; x69])
            "2 B" _ eq_refl eq_refl eq_refl)).
  discriminate.
Defined.

(* ===================================================================== *)
(** * The identifier space *)
(* ===================================================================== *)

Section IdentifierSpace.
Import Base64.

Lemma masked_sextet v s :
  0 <= s -> Z.land (Z.shiftr v s) 63 = (v / 2 ^ s) mod 64.
Proof.
  intros Hs. change 63 with (Z.ones 6).
  rewrite Z.land_ones by lia. now rewrite Z.shiftr_div_pow2 by lia.
Qed.

Lemma masked_bound v s : 0 <= Z.land (Z.shiftr v s) 63 < 64.
Proof.
  change 63 with (Z.ones 6). rewrite Z.land_ones by lia.
  apply Z.mod_pos_bound. lia.
Qed.

(** The table has no repeated character: a character of the table is found
    again at its own position. *)
Lemma position_in_table (i : nat) :
  (i < 64)%nat ->
  position (match String.get i encodeURL with Some c => c | None => zero end)
           encodeURL = i.
Proof.
  intros Hi. do 64 (destruct i as [|i]; [reflexivity|]). lia.
Qed.

Lemma sextet_inj v s v' s' :
  sextet v s = sextet v' s' ->
  Z.land (Z.shiftr v s) 63 = Z.land (Z.shiftr v' s') 63.
Proof.
  unfold sextet. intros H.
  pose proof (masked_bound v s) as B. pose proof (masked_bound v' s') as B'.
  apply (f_equal (fun c => position c encodeURL)) in H.
  rewrite !position_in_table in H by lia. lia.
Qed.

Lemma sextet_masked v s v' s' :
  Z.land (Z.shiftr v s) 63 = Z.land (Z.shiftr v' s') 63 ->
  sextet v s = sextet v' s'.
Proof. unfold sextet. now intros ->. Qed.

Lemma byte_val_bound b : 0 <= byte_val b < 256.
Proof.
  unfold byte_val. pose proof (Byte.to_N_bounded b). lia.
Qed.

(** Placing a value below [2^k] under a shifted one adds the two. *)
Lemma lor_shiftl_low a c k :
  0 <= k -> 0 <= c < 2 ^ k -> Z.lor (Z.shiftl a k) c = a * 2 ^ k + c.
Proof.
  intros Hk Hc. rewrite <- Z.add_lor_land, Z.shiftl_mul_pow2 by lia.
  replace (Z.land (a * 2 ^ k) c) with 0; [lia|].
  symmetry. apply Z.bits_inj'. intros n Hn.
  rewrite Z.land_spec, Z.bits_0, <- Z.shiftl_mul_pow2 by lia.
  destruct (Z_lt_le_dec n k) as [Hlt|Hge].
  - rewrite Z.shiftl_spec_low by lia. reflexivity.
  - destruct (Z.eq_dec c 0) as [->|Hnz];
      [rewrite Z.bits_0; apply andb_false_r|].
    rewrite (Z.bits_above_log2 c n); [apply andb_false_r | lia|].
    apply Z.log2_lt_pow2; [lia|].
    assert (2 ^ k <= 2 ^ n) by (apply Z.pow_le_mono_r; lia). lia.
Qed.

Lemma packed_group b0 b1 b2 :
  Z.lor (Z.lor (Z.shiftl (byte_val b0) 16) (Z.shiftl (byte_val b1) 8))
        (byte_val b2)
  = byte_val b0 * 65536 + byte_val b1 * 256 + byte_val b2.
Proof.
  pose proof (byte_val_bound b0). pose proof (byte_val_bound b1).
  pose proof (byte_val_bound b2).
  replace (Z.lor (Z.shiftl (byte_val b0) 16) (Z.shiftl (byte_val b1) 8))
    with (Z.shiftl (Z.lor (Z.shiftl (byte_val b0) 8) (byte_val b1)) 8).
  2:{ rewrite Z.shiftl_lor, Z.shiftl_shiftl by lia. reflexivity. }
  rewrite (lor_shiftl_low _ (byte_val b2) 8) by lia.
  rewrite (lor_shiftl_low _ (byte_val b1) 8) by lia.
  change (2 ^ 8) with 256. lia.
Qed.

(** A 24-bit group is the sum of its four six-bit digits. *)
Lemma four_digits v :
  0 <= v < 16777216 ->
  v = (v / 262144) mod 64 * 262144 + (v / 4096) mod 64 * 4096 +
      (v / 64) mod 64 * 64 + (v / 1) mod 64.
Proof. intros Hv. Z.div_mod_to_equations. lia. Qed.

(** The fifth character shows the upper six bits of the fourth byte. *)
Lemma fifth_char x :
  0 <= x < 256 -> sextet (Z.shiftl x 16) 18 = sextet (x / 4) 0.
Proof.
  intros Hx. apply sextet_masked.
  rewrite !masked_sextet, Z.shiftl_mul_pow2 by lia.
  change (2 ^ 16) with 65536. change (2 ^ 18) with 262144.
  change (2 ^ 0) with 1. Z.div_mod_to_equations. lia.
Qed.

Lemma generateID_chars b0 b1 b2 b3 :
  generateID [b0; b1; b2; b3] =
  let val := byte_val b0 * 65536 + byte_val b1 * 256 + byte_val b2 in
  Some (String (sextet val 18) (String (sextet val 12)
         (String (sextet val 6) (String (sextet val 0)
           (String (sextet (byte_val b3 / 4) 0) EmptyString))))).
Proof.
  unfold generateID. rewrite Read_enough. cbn [fst EncodeToString].
  rewrite packed_group, <- (fifth_char _ (byte_val_bound b3)). reflexivity.
Qed.

(** The identifier space.  The identifier of a four-byte draw is decided by
    thirty of its thirty-two bits, and by nothing less: two draws are given
    the same identifier exactly when they agree on the first three bytes
    and the upper six bits of the fourth, so there are [2^30] identifiers
    and the two lowest bits of every draw are dropped. *)
Theorem identifier_keeps_thirty_bits b0 b1 b2 b3 c0 c1 c2 c3 :
  0 <= kept_bits b0 b1 b2 b3 < 2 ^ 30 /\
  (generateID [b0; b1; b2; b3] = generateID [c0; c1; c2; c3] <->
   kept_bits b0 b1 b2 b3 = kept_bits c0 c1 c2 c3).
Proof.
  pose proof (byte_val_bound b0) as B0. pose proof (byte_val_bound b1) as B1.
  pose proof (byte_val_bound b2) as B2. pose proof (byte_val_bound b3) as B3.
  pose proof (byte_val_bound c0) as C0. pose proof (byte_val_bound c1) as C1.
  pose proof (byte_val_bound c2) as C2. pose proof (byte_val_bound c3) as C3.
  unfold kept_bits. rewrite !Z.shiftr_div_pow2 by lia.
  change (2 ^ 2) with 4. change (2 ^ 6) with 64.
  change (2 ^ 14) with 16384. change (2 ^ 22) with 4194304.
  change (2 ^ 30) with 1073741824.
  split; [Z.div_mod_to_equations; lia|].
  rewrite !generateID_chars. cbv zeta.
  assert (Hq : 0 <= byte_val b3 / 4 < 64) by (Z.div_mod_to_equations; lia).
  assert (Hr : 0 <= byte_val c3 / 4 < 64) by (Z.div_mod_to_equations; lia).
  remember (byte_val b3 / 4) as q3 eqn:Eq3.
  remember (byte_val c3 / 4) as r3 eqn:Er3.
  remember (byte_val b0 * 65536 + byte_val b1 * 256 + byte_val b2) as v eqn:Ev.
  remember (byte_val c0 * 65536 + byte_val c1 * 256 + byte_val c2) as w eqn:Ew.
  assert (Hv : 0 <= v < 16777216) by lia.
  assert (Hw : 0 <= w < 16777216) by lia.
  split.
  - intros H. injection H as Ha Hb Hc Hd He.
    apply sextet_inj in Ha, Hb, Hc, Hd, He.
    rewrite !masked_sextet in Ha, Hb, Hc, Hd, He by lia.
    change (2 ^ 18) with 262144 in *. change (2 ^ 12) with 4096 in *.
    change (2 ^ 6) with 64 in *. change (2 ^ 0) with 1 in *.
    rewrite !Z.div_1_r, !Z.mod_small in He by lia.
    pose proof (four_digits v Hv) as Dv. pose proof (four_digits w Hw) as Dw.
    rewrite Ha, Hb, Hc, Hd, <- Dw in Dv. lia.
  - intros H.
    assert (Hvw : v = w /\ q3 = r3) by lia.
    destruct Hvw as [-> ->]. reflexivity.
Qed.

End IdentifierSpace.

(* ===================================================================== *)
(** * The printed size near a unit boundary *)
(* ===================================================================== *)

(** Below [2^53] the conversion to [float64] is exact. *)
Lemma float64_of_int_exact x :
  0 < x < 2 ^ 53 -> Fmt.float64_of_int x = x.
Proof.
  intros Hx. unfold Fmt.float64_of_int.
  assert (Z.log2 x < 53) by (apply Z.log2_lt_pow2; lia).
  destruct (Z.leb_spec (Z.log2 x - 52) 0); [reflexivity | lia].
Qed.

(** A quotient within a twentieth below 1024 is printed as ["1024.0"]. *)
Lemma Sprintf_1f_rolls_over num den :
  0 < den -> num < 1024 * den -> 20 * (1024 * den - num) < den ->
  Fmt.Sprintf_1f num den = "1024.0".
Proof.
  intros Hd Hlt Hnear. unfold Fmt.Sprintf_1f.
  assert (Hq : 10 * num / den = 10239).
  { symmetry. apply (Z.div_unique _ _ _ (10 * num - 10239 * den)); lia. }
  assert (Hr : (10 * num) mod den = 10 * num - 10239 * den).
  { symmetry. apply (Z.mod_unique _ _ 10239); lia. }
  rewrite Hq, Hr.
  replace (den <? 2 * (10 * num - 10239 * den)) with true
    by (symmetry; apply Z.ltb_lt; lia).
  reflexivity.
Qed.

(** Sizes just below the next unit.  The loop of [formatSize] picks the unit
    from the integer quotient and the number is rounded afterwards, so a
    count lying less than a twentieth of a unit below [1024] units is
    printed as ["1024.0"] of that unit, not as ["1.0"] of the next one: from
    1048525 bytes up to 1048575 bytes the size reads ["1024.0 KB"]. *)
Theorem formatSize_rolls_over_late bytes (e : nat) :
  (e <= 3)%nat ->
  bytes < 1024 ^ (Z.of_nat e + 2) ->
  20 * (1024 ^ (Z.of_nat e + 2) - bytes) < 1024 ^ (Z.of_nat e + 1) ->
  formatSize bytes = Some ("1024.0 " ++ String (unit_letter e) "B").
Proof.
  intros He Hlt Hnear.
  assert (Hstep : 1024 ^ (Z.of_nat e + 2) = 1024 * 1024 ^ (Z.of_nat e + 1)).
  { replace (Z.of_nat e + 2) with (Z.succ (Z.of_nat e + 1)) by lia.
    apply Z.pow_succ_r. lia. }
  assert (Hden : 0 < 1024 ^ (Z.of_nat e + 1)) by (apply Z.pow_pos_nonneg; lia).
  assert (Htop : 1024 ^ (Z.of_nat e + 2) <= 2 ^ 53).
  { change 1024 with (2 ^ 10). rewrite <- Z.pow_mul_r by lia.
    apply Z.pow_le_mono_r; lia. }
  rewrite (formatSize_magnitude bytes e) by lia.
  rewrite float64_of_int_exact by lia.
  rewrite Sprintf_1f_rolls_over by lia.
  reflexivity.
Qed.

Lemma formatSize_rolls_over_late_witness :
  formatSize 1048525 = Some "1024.0 KB" /\
  formatSize 1073741823 = Some "1024.0 MB".
Proof.
  split.
  - apply (formatSize_rolls_over_late 1048525 0); [lia | reflexivity | reflexivity].
  - apply (formatSize_rolls_over_late 1073741823 1); [lia | reflexivity | reflexivity].
Defined.
